(** * rag-prep.py: a shallow embedding of the copyparty upload hook

    This file models [bin/mtag/rag-prep.py] (the [mtag] hook that
    normalises a freshly uploaded video, names it after its YouTube id and
    ships it with rclone).

    Modelling conventions.
    - Python [str] values are Rocq [string]s; a character is an [ascii],
      read as a code point below 256 (Latin-1).  Python's [\w], [lower()]
      and friends are written out for that range.
    - Bytes passed to subprocesses are the same strings ([fsenc] is
      UTF-8 encoding, which is the identity on the ASCII paths we use).
    - The file system is a [gmap string string] from path to contents.
      [os.path.realpath] is the identity: paths are absolute, normalised
      and free of symlinks.
    - External programs (ffmpeg, rclone, mediainfo, sqlite) are oracles
      supplied by an environment record; only their documented effect on
      the file system is modelled (ffmpeg writes its last argument).
    - The run log [vlog.txt] is kept as a separate list of lines and the
      Discord webhook as a list of notifications. *)

From Stdlib Require Import ZArith Ascii String List Bool Lia.
From stdpp Require Import base gmap strings list.

Local Open Scope Z_scope.

(** stdpp makes string concatenation opaque to [simpl]; the proofs below
    compute with it. *)
#[local] Arguments String.append : simpl nomatch.

(* ------------------------------------------------------------------ *)
(** ** Python string helpers *)

Module Py.

Local Open Scope string_scope.

Definition ceq (a b : ascii) : bool := Ascii.eqb a b.
Definition seq (a b : string) : bool := String.eqb a b.

(** [s.startswith(p)] *)
Fixpoint startswith (s p : string) : bool :=
  match p, s with
  | EmptyString, _ => true
  | String c p', String d s' => ceq c d && startswith s' p'
  | _, _ => false
  end.

(** [s.endswith(p)] *)
Definition endswith (s p : string) : bool :=
  let n := String.length s in
  let m := String.length p in
  Nat.leb m n && seq (String.substring (n - m) m s) p.

(** [p in s] *)
Fixpoint contains (s p : string) : bool :=
  startswith s p ||
  match s with
  | EmptyString => false
  | String _ s' => contains s' p
  end.

(** [s.split(sep)] for a non-empty separator; [acc] is the current piece
    reversed, [skip] the number of separator characters still to drop. *)
Fixpoint split_go (sep s : string) (skip : nat) (acc : string) : list string :=
  match s with
  | EmptyString => [String.rev acc]
  | String c s' =>
      match skip with
      | S k => split_go sep s' k acc
      | O =>
          if startswith s sep
          then String.rev acc :: split_go sep s' (String.length sep - 1) ""
          else split_go sep s' 0 (String c acc)
      end
  end.

Definition split (s sep : string) : list string := split_go sep s 0 "".

(** [l[i]] with Python's [IndexError] as [None] *)
Definition nth_opt {A} (l : list A) (i : nat) : option A := nth_error l i.

(** [l[-1]] and [l[-2]] *)
Definition last_opt {A} (l : list A) : option A := nth_error (List.rev l) 0.
Definition second_last_opt {A} (l : list A) : option A := nth_error (List.rev l) 1.

(** [s.split(sep)[-1]]: [split] never returns an empty list *)
Definition split_last (s sep : string) : string :=
  match last_opt (split s sep) with Some x => x | None => s end.

(** [s.rsplit(".", 1)[0]] *)
Definition rsplit1_head (s sep : string) : string :=
  let parts := split s sep in
  match parts with
  | [_] => s
  | _ => String.concat sep (removelast parts)
  end.

(** [str.lower()] on code points below 256 *)
Definition lower_char (c : ascii) : ascii :=
  let n := nat_of_ascii c in
  if (Nat.leb 65 n && Nat.leb n 90) || (Nat.leb 192 n && Nat.leb n 222 && negb (Nat.eqb n 215))
  then ascii_of_nat (n + 32) else c.

Fixpoint lower (s : string) : string :=
  match s with
  | EmptyString => EmptyString
  | String c s' => String (lower_char c) (lower s')
  end.

(** the regex class [\w] (Unicode, as Python 3 [str] patterns use it) *)
Definition is_word (c : ascii) : bool :=
  let n := nat_of_ascii c in
  (Nat.leb 48 n && Nat.leb n 57) || (Nat.leb 65 n && Nat.leb n 90)
  || Nat.eqb n 95 || (Nat.leb 97 n && Nat.leb n 122)
  || existsb (Nat.eqb n) [170; 178; 179; 181; 185; 186; 188; 189; 190]%nat
  || (Nat.leb 192 n && Nat.leb n 255 && negb (Nat.eqb n 215) && negb (Nat.eqb n 247)).

(** [[\w-]] *)
Definition is_word_dash (c : ascii) : bool := is_word c || ceq c "-"%char.

(** [[0-9]] *)
Definition is_digit (c : ascii) : bool :=
  let n := nat_of_ascii c in Nat.leb 48 n && Nat.leb n 57.

Definition all_chars (f : ascii -> bool) (s : string) : bool :=
  forallb f (list_ascii_of_string s).

End Py.

(* ------------------------------------------------------------------ *)
(** ** [os.path] on POSIX *)

Module Path.

Local Open Scope string_scope.

Fixpoint rstrip_slash_rev (l : list ascii) : list ascii :=
  match l with
  | c :: l' => if Py.ceq c "/"%char then rstrip_slash_rev l' else l
  | [] => []
  end.

(** [os.path.split]:
    [i = p.rfind('/') + 1; head, tail = p[:i], p[i:]]
    and [head.rstrip('/')] unless head is all slashes. *)
Definition split (p : string) : string * string :=
  let l := list_ascii_of_string p in
  let rl := List.rev l in
  let tail_r := List.firstn (length (List.fold_left (fun acc c =>
                   if Py.ceq c "/"%char then [] else c :: acc) l [])) rl in
  let n := (length l - length tail_r)%nat in
  let head := List.firstn n l in
  let tail := List.skipn n l in
  let head' := if forallb (fun c => Py.ceq c "/"%char) head then head
               else List.rev (rstrip_slash_rev (List.rev head)) in
  (string_of_list_ascii head', string_of_list_ascii tail).

Definition basename (p : string) : string := snd (split p).

(** [os.path.join(a, b)] *)
Definition join (a b : string) : string :=
  if Py.startswith b "/" then b
  else if Py.seq a "" || Py.endswith a "/" then a ++ b
  else a ++ "/" ++ b.

End Path.

(* ------------------------------------------------------------------ *)
(** ** [hashlib.sha1] and [base64.b64encode] *)

Module Sha1.

(** bytes are integers in [0, 256), words integers in [0, 2^32) *)
Definition mask32 (x : Z) : Z := Z.land x (2 ^ 32 - 1).
Definition rotl (x : Z) (n : Z) : Z :=
  mask32 (Z.lor (Z.shiftl x n) (Z.shiftr x (32 - n))).

Fixpoint be_words (l : list Z) : list Z :=
  match l with
  | a :: b :: c :: d :: r =>
      (a * 2 ^ 24 + b * 2 ^ 16 + c * 2 ^ 8 + d) :: be_words r
  | _ => []
  end.

Definition be_bytes (n : nat) (x : Z) : list Z :=
  map (fun i => Z.land (Z.shiftr x (8 * Z.of_nat (n - 1 - i))) 255) (List.seq 0 n).

(** message padding: [0x80], zeros, 64-bit big-endian bit length *)
Definition pad (m : list Z) : list Z :=
  let len := length m in
  let k := ((119 - len mod 64) mod 64)%nat in
  m ++ [128] ++ repeat 0 k ++ be_bytes 8 (8 * Z.of_nat len).

(** message schedule, kept most recent first *)
Fixpoint sched (n : nat) (rw : list Z) : list Z :=
  match n with
  | O => rw
  | S n' =>
      let w := rotl (Z.lxor (Z.lxor (nth 2 rw 0) (nth 7 rw 0))
                            (Z.lxor (nth 13 rw 0) (nth 15 rw 0))) 1 in
      sched n' (w :: rw)
  end.

Definition round (st : Z * Z * Z * Z * Z) (iw : nat * Z) : Z * Z * Z * Z * Z :=
  let '(a, b, c, d, e) := st in
  let '(i, w) := iw in
  let '(f, k) :=
    if Nat.ltb i 20 then (Z.lor (Z.land b c) (Z.land (Z.lxor b (2 ^ 32 - 1)) d), 1518500249)
    else if Nat.ltb i 40 then (Z.lxor (Z.lxor b c) d, 1859775393)
    else if Nat.ltb i 60 then (Z.lor (Z.lor (Z.land b c) (Z.land b d)) (Z.land c d), 2400959708)
    else (Z.lxor (Z.lxor b c) d, 3395469782) in
  let t := mask32 (rotl a 5 + f + e + k + w) in
  (t, a, rotl b 30, c, d).

Definition chunk (h : Z * Z * Z * Z * Z) (blk : list Z) : Z * Z * Z * Z * Z :=
  let ws := List.rev (sched 64 (List.rev (be_words blk))) in
  let '(a, b, c, d, e) := fold_left round (combine (List.seq 0 80) ws) h in
  let '(h0, h1, h2, h3, h4) := h in
  (mask32 (h0 + a), mask32 (h1 + b), mask32 (h2 + c), mask32 (h3 + d), mask32 (h4 + e)).

Fixpoint chunks (fuel : nat) (l : list Z) : list (list Z) :=
  match fuel with
  | O => []
  | S f => match l with [] => [] | _ => firstn 64 l :: chunks f (skipn 64 l) end
  end.

Definition digest (m : list Z) : list Z :=
  let p := pad m in
  let '(h0, h1, h2, h3, h4) :=
    fold_left chunk (chunks (length p) p)
      (1732584193, 4023233417, 2562383102, 271733878, 3285377520) in
  flat_map (be_bytes 4) [h0; h1; h2; h3; h4].

End Sha1.

Module B64.

Local Open Scope string_scope.

Definition alphabet : string :=
  "ABCDEFGHIJKLMNOPQRSTUVWXYZabcdefghijklmnopqrstuvwxyz0123456789+/".

Definition sym (x : Z) : ascii :=
  match String.get (Z.to_nat x) alphabet with Some c => c | None => "="%char end.

Fixpoint encode (l : list Z) : string :=
  match l with
  | a :: b :: c :: r =>
      let n := a * 65536 + b * 256 + c in
      String (sym (n / 262144)) (String (sym (n / 4096 mod 64))
        (String (sym (n / 64 mod 64)) (String (sym (n mod 64)) (encode r))))
  | [a; b] =>
      let n := a * 65536 + b * 256 in
      String (sym (n / 262144)) (String (sym (n / 4096 mod 64))
        (String (sym (n / 64 mod 64)) "="))
  | [a] =>
      let n := a * 65536 in
      String (sym (n / 262144)) (String (sym (n / 4096 mod 64)) "==")
  | [] => ""
  end.

End B64.

(** the code of a character, as [bytes] holds it *)
Definition ascii_code (c : ascii) : Z := Z.of_nat (nat_of_ascii c).

(** [s.encode("ascii")]: [None] is [UnicodeEncodeError] *)
Definition encode_ascii (s : string) : option (list Z) :=
  let l := list_ascii_of_string s in
  if forallb (fun c => Nat.ltb (nat_of_ascii c) 128) l
  then Some (map (fun c => Z.of_nat (nat_of_ascii c)) l) else None.

(** [s[:n]] *)
Definition str_take (n : nat) (s : string) : string := String.substring 0 n s.

(* ------------------------------------------------------------------ *)
(** ** The world, the oracles and the run monad *)

(** a Discord embed: its title, the [description] field if any, the id *)
Record note := mkNote { n_title : string; n_desc : option string; n_yi : string }.

Record world := mkWorld {
  files : gmap string string;       (** path -> contents *)
  wlog : list string;               (** lines appended to [vlog.txt] *)
  notes : list note;                (** webhook posts *)
  calls : list (list string)        (** argv of every [run], and [Hook.ffprobe_call] *)
}.

(** what [subprocess.Popen(...).communicate()] returned, and what the
    program wrote to its output file (if it wrote anything) *)
Record tool_res := mkTool { t_so : string; t_se : string; t_rc : Z; t_out : option string }.

(** the parts of [mediainfo --Output=JSON] the hook reads *)
Record mediainfo := mkMI {
  mi_format : string;               (** General/Format *)
  mi_streamable : option string;    (** General/IsStreamable *)
  mi_has_video : bool               (** a Video track exists *)
}.

Record env := mkEnv {
  tool : list string -> tool_res;           (** [run(cmd)] *)
  gb_select : string -> string -> string + option string;
    (** [db.execute("select msg from gb where ip = ? order by ts desc", (ip,)).fetchone()]
        on a [guestbook.db3] holding the given bytes: the exception it
        raises, or the [msg] of the first row ([None]: no row) *)
  urandom32 : list Z;                       (** [os.urandom(32)] *)
  lock_opens : list nat;                    (** indices of the lock files opened before one is held *)
  probe : string -> mediainfo;              (** [mediainfo] on a path *)
  ffprobe : string -> option (gmap string string * gmap string (list string))
    (** [copyparty.mtag.ffprobe(vid_fp)]: the values [v[1]] of its first
        dict and the lists of its second; [None] when it raises *)
}.

(** the ways [main] ends early: [return t], [sys.exit(n)], an uncaught exception *)
Inductive stop := Returned (msg : string) | Exited (code : Z) | Crashed (what : string).

Definition M (A : Type) : Type := world -> (stop + A) * world.

Definition ret {A} (a : A) : M A := fun w => (inr a, w).
Definition halt {A} (s : stop) : M A := fun w => (inl s, w).
Definition bind {A B} (m : M A) (k : A -> M B) : M B :=
  fun w => match m w with
           | (inl s, w') => (inl s, w')
           | (inr a, w') => k a w'
           end.

Notation "'let*' x ':=' m 'in' k" := (bind m (fun x => k))
  (at level 200, x name, m at level 100, k at level 200).

Definition set_files (f : gmap string string) (w : world) : world :=
  mkWorld f (wlog w) (notes w) (calls w).

Definition modify_files (g : gmap string string -> gmap string string) : M unit :=
  fun w => (inr tt, set_files (g (files w)) w).

Section Ops.
Local Open Scope string_scope.

Definition fs_exists (p : string) : M bool :=
  fun w => (inr (bool_decide (is_Some (files w !! p))), w).

(** [open(p, "w").write(s)] *)
Definition fs_write (p s : string) : M unit := modify_files (insert p s).

(** [open(p, "ab").write(s)] *)
Definition fs_append (p s : string) : M unit :=
  fun w => let old := default "" (files w !! p) in
           (inr tt, set_files (<[p := old ++ s]> (files w)) w).

(** [open(p).read()]: [FileNotFoundError] when missing *)
Definition fs_read (p : string) : M string :=
  fun w => match files w !! p with
           | Some s => (inr s, w)
           | None => (inl (Crashed ("FileNotFoundError: " ++ p)), w)
           end.

(** [os.unlink(p)] *)
Definition fs_unlink (p : string) : M unit :=
  fun w => match files w !! p with
           | Some _ => (inr tt, set_files (delete p (files w)) w)
           | None => (inl (Crashed ("FileNotFoundError: " ++ p)), w)
           end.

(** [try: os.unlink(p) except: pass] *)
Definition try_unlink (p : string) : M unit := modify_files (delete p).

(** [os.rename(a, b)]: replaces [b] *)
Definition fs_rename (a b : string) : M unit :=
  fun w => match files w !! a with
           | Some s =>
               if Py.seq a b then (inr tt, w)
               else (inr tt, set_files (<[b := s]> (delete a (files w))) w)
           | None => (inl (Crashed ("FileNotFoundError: " ++ a)), w)
           end.

(** [log(yi, msg)], without the time stamp *)
Definition log (yi msg : string) : M unit :=
  fun w => (inr tt, mkWorld (files w) (wlog w ++ ["[" ++ yi ++ "] " ++ msg]) (notes w) (calls w)).

Definition notify (n : note) : M unit :=
  fun w => (inr tt, mkWorld (files w) (wlog w) (notes w ++ [n]) (calls w)).

End Ops.

(** decimal [str(int)] (exit codes are far below the fuel) *)
Fixpoint digits_go (fuel : nat) (n : Z) (acc : string) : string :=
  match fuel with
  | O => acc
  | S f =>
      let c := ascii_of_nat (48 + Z.to_nat (n mod 10)) in
      if n <? 10 then String c acc else digits_go f (n / 10) (String c acc)
  end.

Definition z_to_string (z : Z) : string :=
  if z <? 0 then ("-" ++ digits_go 64 (- z) "")%string else digits_go 64 z "".

(** [errchk(so, se, rc)] *)
Definition errchk (so se : string) (rc : Z) : Z * string :=
  if negb (rc =? 0) then
    (rc, ("ERROR " ++ z_to_string rc ++ ": " ++ hd "" (Py.split (so ++ se) (String "010"%char "")))%string)
  else if negb (Py.seq se "") then
    (rc, ("Warning: " ++ hd "" (Py.split se (String "010"%char "")))%string)
  else (0, ""%string).

Section Run.
Variable E : env.

(** [run(cmd)]; [outp] is the file the program writes, if any *)
Definition run (cmd : list string) (outp : option string) : M (Z * string) :=
  fun w =>
    let r := tool E cmd in
    let f' := match outp, t_out r with
              | Some p, Some c => <[p := c]> (files w)
              | _, _ => files w
              end in
    (inr (errchk (t_so r) (t_se r) (t_rc r)), mkWorld f' (wlog w) (notes w) (calls w ++ [cmd])).

End Run.

(* ------------------------------------------------------------------ *)
(** ** [main], lines 368-480: flag, lock, uploader identity, video id, gate *)

Module Hook.
Local Open Scope string_scope.

Definition DRYRUN : bool := false.
Definition RCLONE_REMOTE : string := "notmybox".
Definition locks : list string := ["/dev/shm/rplk1"; "/dev/shm/rplk2"].

Definition nl : ascii := "010"%char.
Definition cr : ascii := "013"%char.

(** text-mode [open(p, "r").read()]: universal newlines *)
Fixpoint univ_nl (s : string) : string :=
  match s with
  | EmptyString => EmptyString
  | String c r =>
      if Py.ceq c cr then
        match r with
        | String d r' => if Py.ceq d nl then String nl (univ_nl r') else String nl (univ_nl r)
        | EmptyString => String nl EmptyString
        end
      else String c (univ_nl r)
  end.

(** [f"{x}"] of [md.get(k)] *)
Definition py_str_opt (o : option string) : string :=
  match o with Some s => s | None => "None" end.

(** lines 439-444: a fresh salt, and the pseudonym of [ip] under [salt] *)
Definition new_salt (rnd : list Z) : string := str_take 24 (B64.encode rnd).

Definition derive_uid (ip salt : string) : option string :=
  match encode_ascii (ip ++ salt) with
  | Some b => Some ("ip:" ++ str_take 24 (B64.encode (Sha1.digest b)))
  | None => None
  end.

(** [re.match(r"^[\w-]{11}-[0-9]{13}$", subdir)]; [$] also matches
    before a final newline *)
Definition dir_conv_core (l : list ascii) : bool :=
  Nat.eqb (length l) 25 && forallb Py.is_word_dash (firstn 11 l)
  && Py.ceq (nth 11 l "x"%char) "-"%char && forallb Py.is_digit (skipn 12 l).

Definition dir_conv (s : string) : bool :=
  let l := list_ascii_of_string s in
  dir_conv_core l
  || (match Py.last_opt l with Some c => Py.ceq c nl | None => false end
      && dir_conv_core (removelast l)).

(** [re.search(r"[\[({}]([\w-]{11})[\])}][^\]\[(){}]+$", vid_fp)] *)
Definition is_open (c : ascii) : bool := existsb (Py.ceq c) ["["; "("; "{"; "}"]%char.
Definition is_close (c : ascii) : bool := existsb (Py.ceq c) ["]"; ")"; "}"]%char.
Definition is_bracket (c : ascii) : bool :=
  existsb (Py.ceq c) ["]"; "["; "("; ")"; "{"; "}"]%char.

Definition fn_match_at (l : list ascii) : bool :=
  match l with
  | c :: rest =>
      is_open c && forallb Py.is_word_dash (firstn 11 rest) && Nat.leb 13 (length rest)
      && is_close (nth 11 rest "x"%char)
      && forallb (fun d => negb (is_bracket d)) (skipn 12 rest)
  | [] => false
  end.

Fixpoint fn_search (l : list ascii) : option string :=
  match l with
  | [] => None
  | c :: rest =>
      if fn_match_at l then Some (string_of_list_ascii (firstn 11 rest)) else fn_search rest
  end.

(** [cmt.split("v=")[1].split("&")[0]] *)
Definition comment_id (cmt : string) : string :=
  hd "" (Py.split (nth 1 (Py.split cmt "v=") "") "&").

Section Prelude.
Variable E : env.




(** lines 424-446; [sqlite3.connect] creates a missing [guestbook.db3]
    as an empty file, and SQLite reads an empty file as a database with
    no tables, so the select raises there *)
Definition identity (md : gmap string string) : M (gmap string string) :=
  match md !! "up_ip" with
  | None => ret md
  | Some ip =>
      if Py.seq ip "" then ret md else
      let* dbe := fs_exists "guestbook.db3" in
      let* _ := if dbe then ret tt else fs_write "guestbook.db3" "" in
      let* db := fs_read "guestbook.db3" in
      let* row := if Py.seq db "" then halt (Crashed "sqlite3.OperationalError: no such table: gb")
                  else match gb_select E db ip with
                       | inl e => halt (Crashed e)
                       | inr r => ret r
                       end in
      let* uid := match row with
                  | Some u => ret u
                  | None =>
                      let* have := fs_exists "salt" in
                      let* salt := if have then (let* s := fs_read "salt" in ret (univ_nl s))
                                   else (let s := new_salt (urandom32 E) in
                                         let* _ := fs_write "salt" s in ret s) in
                      match derive_uid ip salt with
                      | Some u => ret u
                      | None => halt (Crashed "UnicodeEncodeError")
                      end
                  end in
      ret (<["uploader" := uid]> md)
  end.

(** lines 455-467: the directory name, then the file name, after [yi]
    was taken from the comment (or left empty) *)
Definition resolve_rest (vid_fp flag yi : string) : M string :=
  match Py.second_last_opt (Py.split vid_fp "/") with
  | None => halt (Crashed "IndexError: list index out of range")
  | Some subdir =>
      let* yi := if dir_conv subdir
                 then let* yi := if Py.seq yi ""
                                 then let y := str_take 11 subdir in
                                      let* _ := log y ("id from subdir: " ++ vid_fp) in ret y
                                 else ret yi in
                      let* _ := fs_write flag "a" in ret yi
                 else ret yi in
      if Py.seq yi "" then
        match fn_search (list_ascii_of_string vid_fp) with
        | Some g => let* _ := log g ("id from filename: " ++ vid_fp) in ret g
        | None => ret ""
        end
      else ret yi
  end.

(** lines 448-467 *)
Definition resolve_id (vid_fp : string) (md : gmap string string) (flag : string) : M string :=
  let cmt := default "" (md !! "comment") in
  let* yi := if Py.contains cmt "youtube.com/watch?v="
             then let y := comment_id cmt in
                  let* _ := log y ("id from comment: " ++ vid_fp) in ret y
             else ret "" in
  resolve_rest vid_fp flag yi.



End Prelude.

End Hook.

(* ------------------------------------------------------------------ *)
(** ** [main], lines 482-661, and the ffmpeg wrappers *)

Module Body.
Import Hook.
Local Open Scope string_scope.

Definition ffmpeg_in : list string := Py.split "ffmpeg -y -hide_banner -nostdin -v warning -i" " ".

(** [fmtconv]: the temp output [mux-<name>] and the command line *)
Definition mux_tmp (fpo : string) : string :=
  let '(a, b) := Path.split fpo in Path.join a ("mux-" ++ b).

Definition conv_cmd (fpi fpo no_att : string) : list string :=
  ffmpeg_in ++ [fpi]
  ++ Py.split ("-map 0 " ++ no_att ++ " -c copy -movflags +faststart") " "
  ++ [mux_tmp fpo].

(** [fmtsplit]: audio first, then video *)
Definition split_outs (fpv fpa : string) : list (list string * string) :=
  let vf := if Py.endswith fpv "mp4" then " -movflags +faststart" else "" in
  let af := if Py.endswith fpa "m4a" then " -movflags +faststart" else "" in
  [(Py.split ("-map 0:a:0 -map -0:t -c copy" ++ af) " ", fpa);
   (Py.split ("-map 0:V:0 -map -0:t -c copy" ++ vf) " ", fpv)].

Definition split_cmd (fpi : string) (o : list string * string) : list string :=
  ffmpeg_in ++ [fpi] ++ fst o ++ [snd o].

Definition thumbex_cmd (fpi fpo : string) : list string :=
  ffmpeg_in ++ [fpi] ++ Py.split "-map 0:v -map -0:V -c copy" " " ++ [fpo].

Definition thumbgen_cmd (fpi fpo : string) : list string :=
  ffmpeg_in ++ [fpi]
  ++ Py.split ("-map 0:V -vf scale=512:288:force_original_aspect_ratio=decrease,setsar=1:1"
               ++ " -frames:v 1 -metadata:s:v:0 rotate=0 -q:v 8") " "
  ++ [fpo].

(** lines 489-500 *)
Definition classify (mi : mediainfo) : option string * bool :=
  let fmt := Py.lower (mi_format mi) in
  if Py.seq fmt "matroska" then (Some "mkv", true)
  else if Py.seq fmt "webm" then (Some "webm", false)
  else if Py.seq fmt "mpeg-4" then
    (Some (if mi_has_video mi then "mp4" else "m4a"),
     negb (bool_decide (mi_streamable mi = Some "Yes")))
  else if Py.seq fmt "flash video" then (Some "flv", false)
  else (None, false).

(** the pattern of line 588, searched in [x.lower()]; the dots inside
    [chat.json] and [info.json] are the regex wildcard (not a newline) *)
Definition wl_exts : list string :=
  ["mp4"; "webm"; "mkv"; "flv"; "opus"; "ogg"; "mp3"; "m4a"; "aac"; "webp"; "jpg"; "png"].

Definition ends_with_pat (l : list ascii) (pat : list (ascii -> bool)) : bool :=
  Nat.leb (length pat) (length l)
  && forallb (fun '(f, c) => f c) (combine pat (skipn (length l - length pat) l)).

Definition lit (s : string) : list (ascii -> bool) :=
  map (fun c d => Py.ceq c d) (list_ascii_of_string s).
Definition anychar : ascii -> bool := fun d => negb (Py.ceq d nl).

Definition wl_core (l : list ascii) : bool :=
  existsb (fun e => ends_with_pat l (lit ("." ++ e))) wl_exts
  || ends_with_pat l (lit ".chat" ++ [anychar] ++ lit "json")
  || ends_with_pat l (lit ".info" ++ [anychar] ++ lit "json").

Definition wl_match (s : string) : bool :=
  let l := list_ascii_of_string s in
  wl_core l
  || (match Py.last_opt l with Some c => Py.ceq c nl | None => false end
      && wl_core (removelast l)).

(** lines 598-612 *)
Definition ext_of (fp : string) : string :=
  if Py.endswith fp ".chat.json" then "chat.json"
  else if Py.endswith fp ".info.json" then "info.json"
  else Py.split_last fp ".".

Definition final_name (yi : string) (md : gmap string string) (fp : string) : string :=
  let ext := ext_of fp in
  let suf := if existsb (Py.seq ext) ["mp4"; "webm"; "mkv"; "flv"]
             then "." ++ Py.split_last (default "" (md !! "res")) "x"
                  ++ "." ++ py_str_opt (md !! "vc")
             else "" in
  yi ++ suf ++ "." ++ ext.

Definition py_bytes_repr (b : string) : string := "b'" ++ b ++ "'".

Section Body.
Variable E : env.

Definition fmtconv (fpi fpo no_att : string) : M (Z * string) :=
  let tfpo := mux_tmp fpo in
  let* r := run E (conv_cmd fpi fpo no_att) (Some tfpo) in
  if Z.eqb (fst r) 0 then let* _ := fs_rename tfpo fpo in ret r
  else let* _ := try_unlink tfpo in ret r.

Fixpoint fmtsplit_go (fpi : string) (outs : list (list string * string)) (last : Z * string)
  : M (Z * string) :=
  match outs with
  | [] => ret last
  | o :: rest =>
      let* r := run E (split_cmd fpi o) (Some (snd o)) in
      if negb (Z.eqb (fst r) 0) then ret r else fmtsplit_go fpi rest r
  end.

Definition fmtsplit (fpi fpv fpa : string) : M (Z * string) :=
  fmtsplit_go fpi (split_outs fpv fpa) (0, "").

(** lines 482-506 *)
Definition classify_rename (yi vid_fp : string) : M (string * bool) :=
  let mi := probe E vid_fp in
  let* _ := log yi ("format: " ++ Py.lower (mi_format mi)) in
  let '(ext, need) := classify mi in
  match ext with
  | Some x =>
      if negb (Py.endswith (Py.lower vid_fp) ("." ++ x)) then
        let fn2 := Py.rsplit1_head vid_fp "." ++ "." ++ x in
        let* _ := fs_rename vid_fp fn2 in
        let* _ := log yi ("renamed " ++ vid_fp ++ " => " ++ fn2) in
        ret (fn2, need)
      else ret (vid_fp, need)
  | None => ret (vid_fp, need)
  end.

(** the entry of directory [d] that the file [p] lies in or is: the
    last component of the ancestor of [p] whose parent is [d] *)
Fixpoint child_of (fuel : nat) (d p : string) : option string :=
  match fuel with
  | O => None
  | S f =>
      let '(h, t) := Path.split p in
      if Py.seq h d then Some t
      else if Py.seq h p then None
      else child_of f d h
  end.

Definition entry_of (d p : string) : option string := child_of (S (String.length p)) d p.

(** [os.listdir(d)]: the files and the (non-empty) subdirectories of [d];
    [os.listdir('')] raises *)
Definition listdir (d : string) : M (list string) :=
  fun w => if Py.seq d "" then (inl (Crashed "FileNotFoundError: "), w)
           else (inr (remove_dups (omap (entry_of d) (map fst (map_to_list (files w))))), w).

Fixpoint gather_go (yi fdir name : string) (fns : list string) (ups : list string) : M (list string) :=
  match fns with
  | [] => ret ups
  | fn :: rest =>
      if Py.startswith fn name then
        let fp := Path.join fdir fn in
        let* _ := log yi ("found " ++ fp) in
        gather_go yi fdir name rest ((ups ++ [fp])%list)
      else gather_go yi fdir name rest ups
  end.

(** lines 508-516 *)
Definition gather (yi vid_fp : string) : M (list string) :=
  let '(fdir, fname) := Path.split vid_fp in
  let name := Py.rsplit1_head fname "." ++ "." in
  let* fns := listdir fdir in
  gather_go yi fdir name fns [].

(** lines 521-535: the inner loop over [.mp4], [.webm] *)
Fixpoint remux_inner (yi vid_fp no_att : string) (exts : list string) (ups : list string)
  : M (bool * list string) :=
  match exts with
  | [] => ret (false, ups)
  | ext :: rest =>
      let* _ := log yi ("remuxing to " ++ ext) in
      let fp2 := vid_fp ++ ext in
      let* r := fmtconv vid_fp fp2 no_att in
      if negb (Z.eqb (fst r) 0) then
        let* _ := log yi ("remux failed; " ++ z_to_string (fst r) ++ ": " ++ snd r) in
        let* _ := try_unlink fp2 in
        remux_inner yi vid_fp no_att rest ups
      else
        let* _ := log yi ("remux success; " ++ snd r) in
        ret (true, (ups ++ [fp2])%list)
  end.

(** lines 519-538: the outer loop over the attachment flag *)
Fixpoint remux_outer (yi vid_fp : string) (noatts : list string) (ups : list string)
  : M (bool * list string) :=
  match noatts with
  | [] => ret (false, ups)
  | na :: rest =>
      let* r := remux_inner yi vid_fp na [".mp4"; ".webm"] ups in
      if fst r then ret r else remux_outer yi vid_fp rest ups
  end.

Definition remux_loop (yi vid_fp : string) (ups : list string) : M (bool * list string) :=
  remux_outer yi vid_fp [""; "-map -0:t"] ups.

(** lines 540-556 *)
Definition split_paths (vid_fp : string) (md : gmap string string) : string * string :=
  let vf := if bool_decide (md !! "vc" = Some "vp8") then "webm" else "mp4" in
  let af := if bool_decide (md !! "ac" = Some "vorbis") || bool_decide (md !! "ac" = Some "opus")
            then "ogg" else "m4a" in
  (vid_fp ++ ".v." ++ vf, vid_fp ++ ".a." ++ af).

Definition split_fallback (yi vid_fp : string) (md : gmap string string) (ups : list string)
  : M (list string) :=
  let '(fpv, fpa) := split_paths vid_fp md in
  let* _ := log yi ("splitting v." ++ Py.split_last fpv "." ++ " a." ++ Py.split_last fpa ".") in
  let* r := fmtsplit vid_fp fpv fpa in
  if negb (Z.eqb (fst r) 0) then
    let* _ := log yi ("split failed! " ++ z_to_string (fst r) ++ ": " ++ snd r) in
    let* _ := try_unlink fpv in
    let* _ := try_unlink fpa in
    ret ups
  else
    let* _ := log yi "split OK" in
    ret ((ups ++ [fpv; fpa])%list).

(** lines 518-556 *)
Definition normalize (yi vid_fp : string) (md : gmap string string) (need : bool)
  (ups : list string) : M (list string) :=
  if need then
    let* r := remux_loop yi vid_fp ups in
    if fst r then ret (snd r) else split_fallback yi vid_fp md ups
  else ret ups.

(** lines 558-584 *)
Definition is_thumb (fp : string) : bool :=
  existsb (Py.seq (Py.split_last (Py.lower fp) ".")) ["jpg"; "jpeg"; "webp"; "png"].

Fixpoint thumbex_go (yi vid_fp : string) (exts : list string) (ups : list string)
  : M (bool * list string) :=
  match exts with
  | [] => ret (false, ups)
  | ext :: rest =>
      let* _ := log yi ("thumb-ex: " ++ ext ++ " ...") in
      let fp := vid_fp ++ ext in
      let* r := run E (thumbex_cmd vid_fp fp) (Some fp) in
      if Z.eqb (fst r) 0 then
        let* _ := log yi "thumb-ex OK" in
        ret (true, (ups ++ [fp])%list)
      else
        let* _ := log yi ("thumb-ex failed; " ++ z_to_string (fst r) ++ ": " ++ snd r) in
        thumbex_go yi vid_fp rest ups
  end.

Definition thumbs (yi vid_fp : string) (ups : list string) : M (list string) :=
  let* r := if existsb is_thumb ups then ret (true, ups)
            else thumbex_go yi vid_fp [".webp"; ".png"; ".jpg"] ups in
  if fst r then ret (snd r) else
  let* _ := log yi "thumb-gen ..." in
  let fp := vid_fp ++ ".jpg" in
  let* g := run E (thumbgen_cmd vid_fp fp) (Some fp) in
  if Z.eqb (fst g) 0 then
    let* _ := log yi "thumb-gen OK" in ret (snd r ++ [fp])%list
  else
    let* _ := log yi ("thumbing failed; " ++ z_to_string (fst g) ++ ": " ++ snd g) in
    ret (snd r).

(** lines 594-618: the renaming loop; returns the new names and [vid_fp] *)
Fixpoint rename_go (yi fdir : string) (md : gmap string string) (ups : list string)
  (vid_fp : string) (ups2 : list string) : M (list string * string) :=
  match ups with
  | [] => ret (ups2, vid_fp)
  | fp :: rest =>
      let fn2 := final_name yi md fp in
      let* _ := log yi ("post " ++ fn2 ++ " = " ++ Py.split_last fp "/") in
      let fp2 := Path.join fdir fn2 in
      let* _ := fs_rename fp fp2 in
      rename_go yi fdir md rest (if Py.seq vid_fp fp then fp2 else vid_fp) (ups2 ++ [fn2])%list
  end.

Fixpoint log_skips (yi : string) (skips : list string) : M unit :=
  match skips with
  | [] => ret tt
  | fn :: rest => let* _ := log yi ("skip " ++ fn) in log_skips yi rest
  end.

Definition skipped (ups : list string) : list string :=
  filter (fun x => negb (wl_match (Py.lower x))) ups.

Definition kept (ups : list string) : list string :=
  let skips := skipped ups in
  filter (fun x => negb (existsb (Py.seq x) skips)) ups.

(** lines 586-621 *)
Definition rename_stage (yi fdir vid_fp : string) (md : gmap string string) (ups : list string)
  : M (list string * string) :=
  let skips := skipped ups in
  let* r := rename_go yi fdir md (kept ups) vid_fp [] in
  let* _ := log_skips yi skips in
  ret r.

(** lines 482-621: returns the shipped names, [fdir] and [vid_fp] *)
Definition body_to_rename (yi vid_fp : string) (md : gmap string string)
  : M (list string * string * string) :=
  let* c := classify_rename yi vid_fp in
  let vid_fp := fst c in
  let fdir := fst (Path.split vid_fp) in
  let* ups := gather yi vid_fp in
  let* ups := normalize yi vid_fp md (snd c) ups in
  let* ups := thumbs yi vid_fp ups in
  let* r := rename_stage yi fdir vid_fp md ups in
  ret (fst r, fdir, snd r).

Definition rclone_cmd (yi fdir : string) : list string :=
  ["rclone"; "copy"; "--files-from"; Path.join fdir "rclone.lst"; fdir;
   RCLONE_REMOTE ++ ":" ++ yi ++ "/"].

Fixpoint unlink_all (fdir : string) (fns : list string) : M unit :=
  match fns with
  | [] => ret tt
  | fn :: rest =>
      let* _ := if negb DRYRUN then fs_unlink (Path.join fdir fn) else ret tt in
      unlink_all fdir rest
  end.

(** lines 625-661 *)
Definition upload (yi fdir : string) (ups : list string) : M unit :=
  let lst := Path.join fdir "rclone.lst" in
  let* _ := fs_write lst (String.concat (String nl "") ups ++ String nl "") in
  let cmd := rclone_cmd yi fdir in
  let* _ := log yi (String.concat " " (map py_bytes_repr cmd)) in
  let* r := if negb DRYRUN then run E cmd None else ret (0, "") in
  if negb (Z.eqb (fst r) 0) then
    let scmd := String.concat " " cmd in
    let* _ := log yi ("rclone failed; command: " ++ scmd ++ String nl "" ++ snd r) in
    let* _ := fs_append "failed-rclones.sh" (String.concat " " cmd ++ String nl "") in
    let* _ := notify (mkNote "Rclone failed" (Some (snd r)) yi) in
    halt (Exited 1)
  else
    let* _ := log yi "<t1 - t0> + <t2 - t1> sec" in
    let* _ := unlink_all fdir ups in
    notify (mkNote "Upped to GDrive" None yi).

End Body.
End Body.

(* ------------------------------------------------------------------ *)
(** ** [esdoc_from_infojson], lines 294-328: the date and the record *)

Module EsDoc.
Import Hook.
Local Open Scope string_scope.

(** the regex [.]: anything but a newline *)
Definition dot (c : ascii) : bool := negb (Py.ceq c nl).

(** the two ways [-?] can go, greedy first *)
Definition opt_dash (l : list ascii) : list (list ascii) :=
  match l with
  | c :: r => if Py.ceq c "-"%char then [r; l] else [l]
  | [] => [l]
  end.

Definition take2 (l : list ascii) : option (list ascii * list ascii) :=
  match l with
  | a :: b :: r => if dot a && dot b then Some ([a; b], r) else None
  | _ => None
  end.

Fixpoint first_some {A B} (f : A -> option B) (l : list A) : option B :=
  match l with
  | [] => None
  | x :: r => match f x with Some y => Some y | None => first_some f r end
  end.

(** [re.search(r"^(....)-?(..)-?(..)", s)], backtracking as [re] does *)
Definition date_match (l : list ascii) : option (list ascii * list ascii * list ascii) :=
  match l with
  | y1 :: y2 :: y3 :: y4 :: r =>
      if forallb dot [y1; y2; y3; y4] then
        first_some (fun r1 =>
          match take2 r1 with
          | Some (m, r2) =>
              first_some (fun r3 =>
                match take2 r3 with
                | Some (d, _) => Some ([y1; y2; y3; y4], m, d)
                | None => None
                end) (opt_dash r2)
          | None => None
          end) (opt_dash r)
      else None
  | _ => None
  end.

(** lines 296-299 *)
Definition norm_upload_date (uploaded : string) : string :=
  match date_match (list_ascii_of_string uploaded) with
  | Some (y, m, d) =>
      string_of_list_ascii y ++ "-" ++ string_of_list_ascii m ++ "-" ++ string_of_list_ascii d
  | None => uploaded
  end.

(** the fields of the sidecar that [esdoc] reads as text; [upload_date] is
    [str(infojson["upload_date"])].  The numeric fields (duration, width,
    height, fps, counters) are copied unchanged and left out here. *)
Record infojson := mkIJ {
  ij_id : string; ij_uploader : string; ij_channel_id : string;
  ij_upload_date : string; ij_title : string; ij_description : string;
  ij_format_id : string
}.

Record esdoc := mkDoc {
  d_video_id : string; d_channel_name : string; d_channel_id : string;
  d_upload_date : string; d_title : string; d_description : string;
  d_format_id : string; d_files : list (string * Z)
}.

(** lines 296-327; [files] are the (basename, size) pairs of [ups] *)
Definition esdoc_of (ij : infojson) (files : list (string * Z)) : esdoc :=
  let uploaded := norm_upload_date (ij_upload_date ij) in
  mkDoc (ij_id ij) (ij_uploader ij) (ij_channel_id ij) uploaded (ij_title ij)
        (ij_description ij) (ij_format_id ij) files.

End EsDoc.

(* ------------------------------------------------------------------ *)
(** ** The lock pool, lines 393-408, as a transition system

    Each process runs
    [while True: for lk in locks: lkf = open(lk, "wb"); try: flock(lkf,
    LOCK_EX | LOCK_NB); break; except: lkf.close()
     ; if not lkf.closed: break; time.sleep(1)].
    [flock] on the lock with index [i] is an atomic test-and-set of
    [owner i]; the kernel drops the lock when its holder exits. *)

Module LockPool.
Local Open Scope nat_scope.

Inductive phase := Idle | Try (i : nat) | Sleep | Hold (i : nat) | Gone.

Record lstate := mkL { owner : nat -> option nat; pc : nat -> phase }.

Definition fupd {A} (f : nat -> A) (x : nat) (v : A) : nat -> A :=
  fun y => if Nat.eqb y x then v else f y.

Definition set_pc (s : lstate) (p : nat) (ph : phase) : lstate :=
  mkL (owner s) (fupd (pc s) p ph).

Section Steps.
Variable n : nat.   (** [len(locks)] *)

Inductive step : lstate -> lstate -> Prop :=
| st_start p s :
    pc s p = Idle -> step s (set_pc s p (Try 0))
| st_get p i s :                  (* flock succeeds: break, lkf open, break *)
    pc s p = Try i -> i < n -> owner s i = None ->
    step s (mkL (fupd (owner s) i (Some p)) (fupd (pc s) p (Hold i)))
| st_busy p i q s :               (* flock raises: close, next lock *)
    pc s p = Try i -> S i < n -> owner s i = Some q -> step s (set_pc s p (Try (S i)))
| st_busy_last p i q s :          (* last lock busy: lkf closed, sleep *)
    pc s p = Try i -> S i = n -> owner s i = Some q -> step s (set_pc s p Sleep)
| st_wake p s :
    pc s p = Sleep -> step s (set_pc s p (Try 0))
| st_exit p i s :                 (* the holder exits; the kernel unlocks *)
    pc s p = Hold i -> step s (mkL (fupd (owner s) i None) (fupd (pc s) p Gone))
| st_die p s :                    (* a process dies before holding a lock *)
    (forall i, pc s p <> Hold i) -> step s (set_pc s p Gone).

Definition init : lstate := mkL (fun _ => None) (fun _ => Idle).

Definition reachable (s : lstate) : Prop := rtc step init s.

End Steps.

End LockPool.

(* ------------------------------------------------------------------ *)
(** ** Observations used in the statements below *)

Module Obs.
Import Hook Body.
Local Open Scope string_scope.

(** the four remux attempts in the order the two loops of lines 520-521
    make them: (extension, extra ffmpeg arguments) *)
Definition remux_order : list (string * string) :=
  [(".mp4", ""); (".webm", ""); (".mp4", "-map -0:t"); (".webm", "-map -0:t")].

Definition conv_ok (E : env) (vid e na : string) : bool :=
  Z.eqb (t_rc (tool E (conv_cmd vid (vid ++ e) na))) 0.

(** the ffmpeg command lines of a chain of remux attempts that stops at the
    first success *)
Fixpoint chain_calls (E : env) (vid : string) (atts : list (string * string)) : list (list string) :=
  match atts with
  | [] => []
  | (e, na) :: rest =>
      conv_cmd vid (vid ++ e) na
      :: (if conv_ok E vid e na then [] else chain_calls E vid rest)
  end.

Definition split_step_ok (E : env) (vid : string) (o : list string * string) : bool :=
  Z.eqb (t_rc (tool E (split_cmd vid o))) 0.

Fixpoint split_calls_go (E : env) (vid : string) (outs : list (list string * string)) : list (list string) :=
  match outs with
  | [] => []
  | o :: rest =>
      split_cmd vid o :: (if split_step_ok E vid o then split_calls_go E vid rest else [])
  end.

Definition split_calls (E : env) (vid : string) (md : gmap string string) : list (list string) :=
  let '(fpv, fpa) := split_paths vid md in split_calls_go E vid (split_outs fpv fpa).

Definition split_ok (E : env) (vid : string) (md : gmap string string) : bool :=
  let '(fpv, fpa) := split_paths vid md in forallb (split_step_ok E vid) (split_outs fpv fpa).

(** the extension of the first attempt of a chain that succeeds *)
Fixpoint first_ok (E : env) (vid : string) (atts : list (string * string)) : option string :=
  match atts with
  | [] => None
  | (e, na) :: rest => if conv_ok E vid e na then Some e else first_ok E vid rest
  end.

(** the upload list [normalize] should return: the first remux that works,
    else both halves of a split that works, else the list unchanged *)
Definition normalized_ups (E : env) (vid : string) (md : gmap string string)
  (ups : list string) : list string :=
  match first_ok E vid remux_order with
  | Some e => (ups ++ [(vid ++ e)%string])%list
  | None =>
      if split_ok E vid md then let '(fpv, fpa) := split_paths vid md in (ups ++ [fpv; fpa])%list
      else ups
  end.

(** the chain of attempts [remux_inner] makes for one value of [no_att] *)
Definition atts_of (na : string) (exts : list string) : list (string * string) :=
  map (fun e => (e, na)) exts.

(** the chain the two loops make for a list of [no_att] values *)
Definition outer_atts (noatts : list string) : list (string * string) :=
  flat_map (fun na => atts_of na [".mp4"; ".webm"]) noatts.

(** the files a chain of attempts can leave *)
Definition arts_of (vid : string) (atts : list (string * string)) : list string :=
  flat_map (fun '(e, _) => [mux_tmp (vid ++ e); vid ++ e]) atts.

(** what a chain of remux attempts returns: the first success, or nothing *)
Definition chain_result (E : env) (vid : string) (atts : list (string * string))
  (ups : list string) : bool * list string :=
  match first_ok E vid atts with
  | Some e => (true, (ups ++ [(vid ++ e)%string])%list)
  | None => (false, ups)
  end.

(** every file a remux attempt can leave: the temp output and the target *)
Definition remux_artifacts (vid : string) : list string :=
  flat_map (fun '(e, _) => [mux_tmp (vid ++ e); vid ++ e]) remux_order.

(** ffmpeg that exits 0 has written its output file *)
Definition writes_on_success (E : env) : Prop :=
  forall cmd, t_rc (tool E cmd) = 0 -> is_Some (t_out (tool E cmd)).

(** the id [resolve_id] settles on, source by source (lines 448-467):
    the comment, else the directory name, else the file name *)
Definition resolved_id (vid : string) (md : gmap string string) (subdir : string) : string :=
  let cmt := default "" (md !! "comment") in
  let y1 := if Py.contains cmt "youtube.com/watch?v=" then comment_id cmt else "" in
  if negb (Py.seq y1 "") then y1
  else if dir_conv subdir then str_take 11 subdir
  else match fn_search (list_ascii_of_string vid) with Some g => g | None => "" end.




(** the log lines of the renaming loop and of the skip loop (lines 614, 620) *)
Definition post_line (yi : string) (md : gmap string string) (fp : string) : string :=
  "[" ++ yi ++ "] " ++ ("post " ++ Body.final_name yi md fp ++ " = " ++ Py.split_last fp "/").

Definition skip_line (yi fn : string) : string := "[" ++ yi ++ "] " ++ ("skip " ++ fn).

End Obs.

(* ------------------------------------------------------------------ *)
(** ** [esdoc_from_infojson], lines 250-263: which stream holds the sidecar *)

Module IJ.
Local Open Scope string_scope.

(** one entry of [fj["streams"]] from ffprobe: its [index] and its [tags]
    object, if it has one *)
Record ffstream := mkStream { st_index : Z; st_tags : option (gmap string string) }.

(** the loop of lines 253-261, returning [(p1, p2)].  A missing key raises
    [KeyError]; the [except: pass] swallows it before anything else of
    that stream is looked at. *)
Fixpoint ij_scan (sts : list ffstream) (p2 : option Z) : option Z * option Z :=
  match sts with
  | [] => (None, p2)
  | st :: rest =>
      match st_tags st with
      | None => ij_scan rest p2
      | Some tg =>
          match tg !! "filename" with
          | None => ij_scan rest p2
          | Some fn =>
              if Py.endswith (Py.lower fn) ".info.json" then (Some (st_index st), p2)
              else match tg !! "mimetype" with
                   | None => ij_scan rest p2
                   | Some mt =>
                       if Py.seq (Py.lower mt) "application/json"
                       then ij_scan rest (Some (st_index st))
                       else ij_scan rest p2
                   end
          end
      end
  end.

(** lines 253-263: [n = p2 if p1 is None else p1] *)
Definition ij_stream (sts : list ffstream) : option Z :=
  let '(p1, p2) := ij_scan sts None in
  match p1 with None => p2 | Some n => Some n end.

(** the stream's [filename] tag ends in [.info.json] (case-insensitively) *)
Definition has_ij_name (st : ffstream) : bool :=
  match st_tags st with
  | Some tg => match tg !! "filename" with
               | Some fn => Py.endswith (Py.lower fn) ".info.json"
               | None => false
               end
  | None => false
  end.

(** the stream has a [filename] tag, and that name or its [mimetype] tag
    marks it as JSON *)
Definition tagged_json (st : ffstream) : Prop :=
  exists tg fn, st_tags st = Some tg /\ tg !! "filename" = Some fn
    /\ (Py.endswith (Py.lower fn) ".info.json" = true
        \/ exists mt, tg !! "mimetype" = Some mt /\ Py.seq (Py.lower mt) "application/json" = true).

End IJ.

(* ------------------------------------------------------------------ *)
(** ** Character classes used in the statements below *)

(** no line feed in [s] *)
Definition no_nl (s : string) : bool := Py.all_chars (fun c => negb (Py.ceq c Hook.nl)) s.

(** [c] is a character of the standard base64 alphabet *)
Definition b64_char (c : ascii) : bool :=
  existsb (Py.ceq c) (list_ascii_of_string B64.alphabet).

(** the lock index of a holding process *)
Definition hold_ix (ph : LockPool.phase) : nat :=
  match ph with LockPool.Hold i => i | _ => 0%nat end.

(* ------------------------------------------------------------------ *)
(** ** Concrete inputs *)

Definition gb_world : world :=
  mkWorld (<["salt" := "saltsaltsaltsaltsaltsalt"]> (<["guestbook.db3" := "SQLite format 3"]> ∅))%string [] [] [].
Definition gb_md : gmap string string := <["up_ip" := "10.0.0.1"]> ∅.
Definition gb_env : env :=
  mkEnv (fun _ => mkTool "" "" 0 None) (fun _ _ => inr None) (repeat 0 32) [0%nat]
        (fun _ => mkMI "Matroska" None true) (fun _ => None).

Definition rclone_fail_env : env :=
  mkEnv (fun _ => mkTool "" "connection refused" 1 None) (fun _ _ => inr None) (repeat 0 32) [0%nat]
        (fun _ => mkMI "Matroska" None true) (fun _ => None).

(** ffmpeg rejects every input *)
Definition fail_env : env :=
  mkEnv (fun _ => mkTool "" "Invalid data found" 1 None) (fun _ _ => inr None) (repeat 0 32) [0%nat]
        (fun _ => mkMI "Matroska" None true) (fun _ => None).

(** ffmpeg only manages the WebM remux without attachments *)
Definition webm_env : env :=
  mkEnv (fun cmd => if existsb (String.eqb "-0:t") cmd && existsb (String.eqb "/v/mux-a.mkv.webm") cmd
                    then mkTool "" "" 0 (Some "remuxed") else mkTool "" "Invalid data found" 1 None)
        (fun _ _ => inr None) (repeat 0 32) [0%nat] (fun _ => mkMI "Matroska" None true) (fun _ => None).

Definition mkv_world : world := mkWorld (<["/v/a.mkv" := "data"]> ∅)%string [] [] [].

Definition cmt_md : gmap string string :=
  <["comment" := "https://www.youtube.com/watch?v=dQw4w9WgXcQ"]> ∅.

Definition conv_vid : string := "/up/AAAAAAAAAAA-1234567890123/x.mp4".

Definition conv_flag : string := "/up/AAAAAAAAAAA-1234567890123/.processed".

(** metadata with no fields at all *)
Definition no_md : gmap string string := ∅.


Definition short_md : gmap string string := <["comment" := "youtube.com/watch?v=abc"]> ∅.

(** every tool succeeds and writes its output; the upload is an MPEG-4
    file that is not streamable, so it gets remuxed *)
Definition remux_env : env :=
  mkEnv (fun _ => mkTool "" "" 0 (Some "out")) (fun _ _ => inr None) (repeat 0 32) [0%nat]
        (fun _ => mkMI "MPEG-4" (Some "No") true) (fun _ => None).

Definition dup_world : world := mkWorld (<["/v/x.mp4" := "data"]> ∅)%string [] [] [].

Definition dup_md : gmap string string := <["res" := "1920x1080"]> (<["vc" := "h264"]> ∅).

Definition skip_ups : list string := ["/v/x.mp4"; "/v/x.nfo"; "/v/x.mp4.webp"].

Definition skip_world : world :=
  mkWorld (<["/v/x.mp4" := "v"]> (<["/v/x.nfo" := "n"]> (<["/v/x.mp4.webp" := "t"]> ∅)))%string
          [] [] [].

(** a guestbook but no salt yet *)
Definition db_world : world := mkWorld (<["guestbook.db3" := "SQLite format 3"]> ∅)%string [] [] [].


(** ffprobe streams: a JSON attachment without a file name, one named
    [notes.json], and a video stream without tags *)
Definition ij_streams : list IJ.ffstream :=
  [IJ.mkStream 0 (Some (<["mimetype" := "application/json"]> ∅));
   IJ.mkStream 1 (Some (<["filename" := "notes.json"]> (<["mimetype" := "application/json"]> ∅)));
   IJ.mkStream 2 None]%string.

(** two attachments named as sidecars, after one that is not *)
Definition ij_pre : list IJ.ffstream :=
  [IJ.mkStream 1 (Some (<["filename" := "notes.json"]> (<["mimetype" := "application/json"]> ∅)))]%string.
Definition ij_hit : IJ.ffstream := IJ.mkStream 3 (Some (<["filename" := "V.Info.JSON"]> ∅))%string.
Definition ij_post : list IJ.ffstream := [IJ.mkStream 4 (Some (<["filename" := "b.info.json"]> ∅))]%string.

(** a run of the lock pool with two locks and three processes: process 0
    takes lock 0, process 1 finds it busy and takes lock 1, process 2
    finds both busy and sleeps *)
Section LockTrace.
Local Open Scope nat_scope.

Definition lk_s1 : LockPool.lstate := LockPool.set_pc LockPool.init 0 (LockPool.Try 0).
Definition lk_s2 : LockPool.lstate :=
  LockPool.mkL (LockPool.fupd (LockPool.owner lk_s1) 0 (Some 0))
               (LockPool.fupd (LockPool.pc lk_s1) 0 (LockPool.Hold 0)).
Definition lk_s3 : LockPool.lstate := LockPool.set_pc lk_s2 1 (LockPool.Try 0).
Definition lk_s4 : LockPool.lstate := LockPool.set_pc lk_s3 1 (LockPool.Try 1).
Definition lk_s5 : LockPool.lstate :=
  LockPool.mkL (LockPool.fupd (LockPool.owner lk_s4) 1 (Some 1))
               (LockPool.fupd (LockPool.pc lk_s4) 1 (LockPool.Hold 1)).
Definition lk_s6 : LockPool.lstate := LockPool.set_pc lk_s5 2 (LockPool.Try 0).
Definition lk_s7 : LockPool.lstate := LockPool.set_pc lk_s6 2 (LockPool.Try 1).
Definition lk_s8 : LockPool.lstate := LockPool.set_pc lk_s7 2 LockPool.Sleep.

End LockTrace.

(* ------------------------------------------------------------------ *)
(** ** Sanity checks of the embedding on concrete inputs *)

Example path_split_1 : Path.split "/a/b" = ("/a", "b")%string.
Proof. reflexivity. Qed.

Example path_split_2 : Path.split "a" = (""%string, "a"%string).
Proof. reflexivity. Qed.

Example path_split_3 : Path.split "//x" = ("//", "x")%string.
Proof. reflexivity. Qed.

Example py_split_1 : Py.split "-map 0  -c copy" " " = ["-map"; "0"; ""; "-c"; "copy"]%string.
Proof. reflexivity. Qed.

Example py_split_2 : Py.split "a=b&v=xy&z" "v=" = ["a=b&"; "xy&z"]%string.
Proof. reflexivity. Qed.

Example py_rsplit_1 : Py.rsplit1_head "/d/a.b.mkv" "." = "/d/a.b"%string.
Proof. reflexivity. Qed.

Example sha1_abc :
  B64.encode (Sha1.digest [97; 98; 99]) = "qZk+NkcGgWq6PiVxeFDCbJzQ2J0="%string.
Proof. vm_compute. reflexivity. Qed.

Example sha1_empty : B64.encode (Sha1.digest []) = "2jmj7l5rSw0yVb/vlWAYkK/YBwk="%string.
Proof. vm_compute. reflexivity. Qed.

Example sha1_100a :
  B64.encode (Sha1.digest (repeat 97 100)) = "f5AAJXpJGNcHJlXqRoVAzcvULgw="%string.
Proof. vm_compute. reflexivity. Qed.

Example z_to_string_1 : z_to_string (-9) = "-9"%string.
Proof. reflexivity. Qed.

Example errchk_1 : errchk "" "bad
more" 1 = (1, "ERROR 1: bad")%string.
Proof. reflexivity. Qed.

Example fn_search_1 :
  Hook.fn_search (list_ascii_of_string "/up/x/some video [dQw4w9WgXcQ].mkv")
  = Some "dQw4w9WgXcQ"%string.
Proof. reflexivity. Qed.

Example fn_search_2 :
  Hook.fn_search (list_ascii_of_string "/up/x/a [dQw4w9WgXcQ] (b).mkv") = None.
Proof. reflexivity. Qed.

Example dir_conv_1 : Hook.dir_conv "dQw4w9WgXcQ-1700000000000" = true.
Proof. reflexivity. Qed.

Example comment_id_1 :
  Hook.comment_id "https://www.youtube.com/watch?v=dQw4w9WgXcQ&t=5" = "dQw4w9WgXcQ"%string.
Proof. reflexivity. Qed.

Example norm_date_1 : EsDoc.norm_upload_date "20230115" = "2023-01-15"%string.
Proof. reflexivity. Qed.

Example norm_date_2 : EsDoc.norm_upload_date "2023-01-15" = "2023-01-15"%string.
Proof. reflexivity. Qed.

(* ------------------------------------------------------------------ *)
(** ** Metadata document: [upload_date] *)

Section DateLemmas.
Local Open Scope string_scope.

Lemma digit_not_dash_nl (c : ascii) :
  Py.is_digit c = true -> Py.ceq c "-"%char = false /\ EsDoc.dot c = true.
Proof.
  intros H. unfold EsDoc.dot, Py.ceq.
  split.
  - destruct (Ascii.eqb c "-"%char) eqn:E; [|reflexivity].
    apply Ascii.eqb_eq in E. subst. discriminate.
  - destruct (Ascii.eqb c Hook.nl) eqn:E; [|reflexivity].
    apply Ascii.eqb_eq in E. subst. discriminate.
Qed.

End DateLemmas.

(** C7 (counterexample): a date written with [/] separators is not
    brought to [YYYY-MM-DD]; the regex only skips an optional [-]. *)
Lemma C7_slash_date_not_normalized :
  EsDoc.d_upload_date
    (EsDoc.esdoc_of (EsDoc.mkIJ "dQw4w9WgXcQ" "u" "c" "2023/01/15" "t" "d" "22") [])
  = "2023-/0-1/"%string
  /\ "2023-/0-1/"%string <> "2023-01-15"%string.
Proof. split; [reflexivity | discriminate]. Qed.

(** C7 (amended): when the sidecar's [upload_date] is eight digits
    [YYYYMMDD], optionally with a [-] after the year and/or after the month,
    the document's [upload_date] is [YYYY-MM-DD]. *)
Theorem C7_upload_date_normalized (ij : EsDoc.infojson) (fs : list (string * Z))
  (y1 y2 y3 y4 m1 m2 d1 d2 : ascii) (s1 s2 : list ascii) :
  forallb Py.is_digit [y1; y2; y3; y4; m1; m2; d1; d2] = true ->
  (s1 = [] \/ s1 = ["-"%char]) -> (s2 = [] \/ s2 = ["-"%char]) ->
  EsDoc.ij_upload_date ij
    = string_of_list_ascii ([y1; y2; y3; y4] ++ s1 ++ [m1; m2] ++ s2 ++ [d1; d2]) ->
  EsDoc.d_upload_date (EsDoc.esdoc_of ij fs)
    = string_of_list_ascii [y1; y2; y3; y4; "-"%char; m1; m2; "-"%char; d1; d2].
Proof.
  intros Hd H1 H2 Hu.
  simpl in Hd. repeat rewrite andb_true_iff in Hd.
  destruct Hd as (Hy1 & Hy2 & Hy3 & Hy4 & Hm1 & Hm2 & Hd1 & Hd2 & _).
  apply digit_not_dash_nl in Hy1, Hy2, Hy3, Hy4, Hm1, Hm2, Hd1, Hd2.
  destruct Hy1 as [Ay1 By1], Hy2 as [Ay2 By2], Hy3 as [Ay3 By3], Hy4 as [Ay4 By4],
           Hm1 as [Am1 Bm1], Hm2 as [Am2 Bm2], Hd1 as [Ad1 Bd1], Hd2 as [Ad2 Bd2].
  unfold EsDoc.esdoc_of, EsDoc.norm_upload_date. simpl. rewrite Hu.
  rewrite list_ascii_of_string_of_list_ascii.
  destruct H1 as [-> | ->]; destruct H2 as [-> | ->];
    do 4 (cbn; rewrite ?Ay1, ?By1, ?Ay2, ?By2, ?Ay3, ?By3, ?Ay4, ?By4,
                  ?Am1, ?Bm1, ?Am2, ?Bm2, ?Ad1, ?Bd1, ?Ad2, ?Bd2);
    reflexivity.
Qed.

Lemma C7_upload_date_normalized_witness :
  EsDoc.d_upload_date
    (EsDoc.esdoc_of (EsDoc.mkIJ "dQw4w9WgXcQ" "u" "c" "2023-01-15" "t" "d" "22") [])
  = "2023-01-15"%string.
Proof.
  apply (C7_upload_date_normalized _ [] "2" "0" "2" "3" "0" "1" "1" "5" ["-"%char] ["-"%char]);
    [reflexivity | right; reflexivity | right; reflexivity | reflexivity].
Defined.

(* ------------------------------------------------------------------ *)
(** ** General facts about the primitives *)

Lemma errchk_fst (so se : string) (rc : Z) : fst (errchk so se rc) = rc.
Proof.
  unfold errchk. destruct (rc =? 0) eqn:E; simpl.
  - apply Z.eqb_eq in E. subst. destruct (negb (Py.seq se "")); reflexivity.
  - reflexivity.
Qed.

Lemma bind_inr {A B} (m : M A) (k : A -> M B) (w : world) (a : A) (w' : world) :
  m w = (inr a, w') -> bind m k w = k a w'.
Proof. intros H. unfold bind. now rewrite H. Qed.

Lemma bind_inl {A B} (m : M A) (k : A -> M B) (w : world) (s : stop) (w' : world) :
  m w = (inl s, w') -> bind m k w = (inl s, w').
Proof. intros H. unfold bind. now rewrite H. Qed.

Lemma bind_assoc {A B C} (m : M A) (k1 : A -> M B) (k2 : B -> M C) (w : world) :
  bind (bind m k1) k2 w = bind m (fun a => bind (k1 a) k2) w.
Proof. unfold bind. destruct (m w) as [[s|a] w']; reflexivity. Qed.

Lemma list_ascii_of_string_app (a b : string) :
  list_ascii_of_string (a ++ b) = list_ascii_of_string a ++ list_ascii_of_string b.
Proof. induction a as [|c a IH]; simpl; [reflexivity | now rewrite IH]. Qed.

Lemma sapp_assoc (a b c : string) : ((a ++ b) ++ c = a ++ (b ++ c))%string.
Proof. induction a as [|x a IH]; simpl; [reflexivity | now rewrite IH]. Qed.

Lemma seq_false_of_neq (a b : string) : a <> b -> Py.seq a b = false.
Proof. intros H. unfold Py.seq. now apply String.eqb_neq. Qed.

(* ------------------------------------------------------------------ *)
(** ** Uploader identity *)

Section Identity.
Local Open Scope string_scope.

Lemma identity_fresh (E : env) (w : world) (md : gmap string string) (ip db s : string) :
  md !! "up_ip" = Some ip -> ip <> "" ->
  files w !! "guestbook.db3" = Some db -> db <> "" -> gb_select E db ip = inr None ->
  files w !! "salt" = Some s ->
  Py.all_chars (fun c => Nat.ltb (nat_of_ascii c) 128) (ip ++ Hook.univ_nl s) = true ->
  fst (Hook.identity E md w)
  = inr (<["uploader" := "ip:" ++ str_take 24 (B64.encode (Sha1.digest
            (map ascii_code (list_ascii_of_string (ip ++ Hook.univ_nl s)))))]> md).
Proof.
  intros Hip Hne Hdb Hdn Hgb Hs Hasc.
  unfold Hook.identity. rewrite Hip, (seq_false_of_neq _ _ Hne).
  unfold bind, ret, halt, fs_exists, fs_read, fs_write, modify_files.
  rewrite (bool_decide_eq_true_2 (is_Some (files w !! "guestbook.db3"))) by (rewrite Hdb; eexists; reflexivity).
  rewrite Hdb, (seq_false_of_neq _ _ Hdn), Hgb.
  rewrite (bool_decide_eq_true_2 (is_Some (files w !! "salt"))) by (rewrite Hs; eexists; reflexivity).
  rewrite Hs. cbn.
  unfold Hook.derive_uid, encode_ascii. unfold Py.all_chars in Hasc. rewrite Hasc.
  reflexivity.
Qed.

End Identity.

(** C10: with no earlier guestbook entry for the address (the guestbook
    is a database whose select finds no row; an empty [guestbook.db3] has
    no table and crashes the run instead), two runs that
    read the same salt file derive the same pseudonym, ["ip:"] followed by
    the first 24 characters of base64(SHA-1(address + salt)); the salt is
    the file read in text mode, and address and salt are ASCII (the salt
    the hook writes is base64). *)
Theorem C10_uid_deterministic (E1 E2 : env) (w1 w2 : world)
  (md1 md2 : gmap string string) (ip s db1 db2 : string) :
  md1 !! "up_ip" = Some ip -> md2 !! "up_ip" = Some ip -> ip <> ""%string ->
  files w1 !! "guestbook.db3" = Some db1 -> db1 <> ""%string -> gb_select E1 db1 ip = inr None ->
  files w2 !! "guestbook.db3" = Some db2 -> db2 <> ""%string -> gb_select E2 db2 ip = inr None ->
  files w1 !! "salt" = Some s -> files w2 !! "salt" = Some s ->
  Py.all_chars (fun c => Nat.ltb (nat_of_ascii c) 128) (ip ++ Hook.univ_nl s) = true ->
  let uid := ("ip:" ++ str_take 24 (B64.encode (Sha1.digest
                 (map ascii_code (list_ascii_of_string (ip ++ Hook.univ_nl s))))))%string in
  fst (Hook.identity E1 md1 w1) = inr (<["uploader" := uid]> md1)
  /\ fst (Hook.identity E2 md2 w2) = inr (<["uploader" := uid]> md2).
Proof.
  intros H1 H2 Hne Hd1 Hn1 Hg1 Hd2 Hn2 Hg2 Hs1 Hs2 Ha uid. split.
  - now apply (identity_fresh E1 w1 md1 ip db1 s).
  - now apply (identity_fresh E2 w2 md2 ip db2 s).
Qed.


Lemma C10_uid_deterministic_witness :
  fst (Hook.identity gb_env gb_md gb_world)
  = inr (<["uploader" := "ip:bPHX5FTyjiS86xnvfRJzLQIB"]> gb_md)%string.
Proof.
  destruct (C10_uid_deterministic gb_env gb_env gb_world gb_world
              gb_md gb_md "10.0.0.1" "saltsaltsaltsaltsaltsalt" "SQLite format 3" "SQLite format 3"
              ltac:(vm_compute; reflexivity) ltac:(vm_compute; reflexivity)
              ltac:(discriminate)
              ltac:(vm_compute; reflexivity) ltac:(discriminate) eq_refl
              ltac:(vm_compute; reflexivity) ltac:(discriminate) eq_refl
              ltac:(vm_compute; reflexivity) ltac:(vm_compute; reflexivity)
              ltac:(vm_compute; reflexivity)) as [H _].
  rewrite H. vm_compute. reflexivity.
Defined.

(* ------------------------------------------------------------------ *)
(** ** rclone failure *)

Section Upload.
Local Open Scope string_scope.

Lemma rclone_lst_not_retry (fdir : string) :
  Path.join fdir "rclone.lst" <> "failed-rclones.sh".
Proof.
  assert (Hsuf : exists a, Path.join fdir "rclone.lst" = a ++ "rclone.lst").
  { unfold Path.join. simpl.
    destruct (Py.seq fdir "" || Py.endswith fdir "/").
    - eexists; reflexivity.
    - exists (fdir ++ "/"). now rewrite sapp_assoc. }
  destruct Hsuf as [a ->]. intros H.
  apply (f_equal (fun s => hd "x"%char (List.rev (list_ascii_of_string s)))) in H.
  rewrite list_ascii_of_string_app, List.rev_app_distr in H. discriminate H.
Qed.

End Upload.

(** C8: when [rclone] exits non-zero, the upload step ends with exit code 1,
    deletes no file, leaves every file other than [rclone.lst] and the retry
    queue as it was, appends the command line (arguments joined by spaces,
    then a newline) to [failed-rclones.sh], posts one "Rclone failed"
    notification, and ran rclone exactly once. *)
Theorem C8_rclone_failure_keeps_files (E : env) (yi fdir : string) (ups : list string) (w : world) :
  t_rc (tool E (Body.rclone_cmd yi fdir)) <> 0 ->
  let r := Body.upload E yi fdir ups w in
  let res := tool E (Body.rclone_cmd yi fdir) in
  fst r = inl (Exited 1)
  /\ (forall p, is_Some (files w !! p) -> is_Some (files (snd r) !! p))
  /\ (forall p, p <> Path.join fdir "rclone.lst" -> p <> "failed-rclones.sh"%string ->
        files (snd r) !! p = files w !! p)
  /\ files (snd r) !! "failed-rclones.sh"
     = Some (default "" (files w !! "failed-rclones.sh")
             ++ String.concat " " (Body.rclone_cmd yi fdir) ++ String Hook.nl "")%string
  /\ notes (snd r)
     = notes w ++ [mkNote "Rclone failed" (Some (snd (errchk (t_so res) (t_se res) (t_rc res)))) yi]
  /\ calls (snd r) = calls w ++ [Body.rclone_cmd yi fdir].
Proof.
  intros Hrc r res.
  assert (Hne := rclone_lst_not_retry fdir).
  subst r res. unfold Body.upload, bind, fs_write, modify_files, Body.log_skips. cbn -[Path.join].
  rewrite errchk_fst.
  destruct (t_rc (tool E (Body.rclone_cmd yi fdir)) =? 0) eqn:Hz;
    [apply Z.eqb_eq in Hz; contradiction|].
  cbn -[Path.join]. rewrite lookup_insert_ne by congruence.
  split; [reflexivity|].
  split; [|split; [|split; [|split]]].
  - intros p Hp. destruct (decide (p = "failed-rclones.sh"%string)) as [->|Hp1].
    + rewrite lookup_insert_eq. eexists; reflexivity.
    + rewrite lookup_insert_ne by congruence.
      destruct (decide (p = Path.join fdir "rclone.lst")) as [->|Hp2].
      * rewrite lookup_insert_eq. eexists; reflexivity.
      * rewrite lookup_insert_ne by congruence. exact Hp.
  - intros p H1 H2. rewrite !lookup_insert_ne by congruence. reflexivity.
  - rewrite lookup_insert_eq. reflexivity.
  - reflexivity.
  - reflexivity.
Qed.


Lemma C8_rclone_failure_keeps_files_witness :
  fst (Body.upload rclone_fail_env "dQw4w9WgXcQ" "/up/v" ["dQw4w9WgXcQ.1080.h264.mp4"]
         (mkWorld (<["/up/v/dQw4w9WgXcQ.1080.h264.mp4" := "data"]> ∅) [] [] []))
  = inl (Exited 1)
  /\ is_Some (files (snd (Body.upload rclone_fail_env "dQw4w9WgXcQ" "/up/v"
                         ["dQw4w9WgXcQ.1080.h264.mp4"]
                         (mkWorld (<["/up/v/dQw4w9WgXcQ.1080.h264.mp4" := "data"]> ∅) [] [] [])))
             !! "/up/v/dQw4w9WgXcQ.1080.h264.mp4")%string.
Proof.
  destruct (C8_rclone_failure_keeps_files rclone_fail_env "dQw4w9WgXcQ" "/up/v"
              ["dQw4w9WgXcQ.1080.h264.mp4"]
              (mkWorld (<["/up/v/dQw4w9WgXcQ.1080.h264.mp4" := "data"]> ∅) [] [] []))
    as (H1 & H2 & _); [simpl; lia|].
  split; [exact H1|]. apply H2. eexists; reflexivity.
Defined.

(* ------------------------------------------------------------------ *)
(** ** The remux chain and the split fallback *)

Section Remux.
Variable E : env.
Variables (yi vid : string).

Lemma fmtconv_fail (fpi fpo na : string) (w : world) :
  t_rc (tool E (Body.conv_cmd fpi fpo na)) <> 0 ->
  Body.fmtconv E fpi fpo na w
  = (inr (errchk (t_so (tool E (Body.conv_cmd fpi fpo na))) (t_se (tool E (Body.conv_cmd fpi fpo na)))
            (t_rc (tool E (Body.conv_cmd fpi fpo na)))),
     mkWorld (delete (Body.mux_tmp fpo) (files w)) (wlog w) (notes w) (calls w ++ [Body.conv_cmd fpi fpo na])).
Proof.
  intros Hrc. unfold Body.fmtconv.
  erewrite bind_inr by reflexivity.
  rewrite errchk_fst. apply Z.eqb_neq in Hrc. rewrite Hrc.
  unfold bind, try_unlink, modify_files, set_files, ret. cbn -[Body.mux_tmp Body.conv_cmd].
  f_equal. f_equal.
  destruct (t_out (tool E (Body.conv_cmd fpi fpo na))); [apply delete_insert_eq|reflexivity].
Qed.

Lemma fmtconv_ok (fpi fpo na : string) (w : world) :
  Obs.writes_on_success E ->
  t_rc (tool E (Body.conv_cmd fpi fpo na)) = 0 ->
  exists w', Body.fmtconv E fpi fpo na w
  = (inr (errchk (t_so (tool E (Body.conv_cmd fpi fpo na))) (t_se (tool E (Body.conv_cmd fpi fpo na)))
            (t_rc (tool E (Body.conv_cmd fpi fpo na)))), w')
  /\ calls w' = calls w ++ [Body.conv_cmd fpi fpo na].
Proof.
  intros Hw Hrc. destruct (Hw _ Hrc) as [c Hc]. unfold Body.fmtconv.
  erewrite bind_inr by reflexivity.
  rewrite errchk_fst, Hrc. cbn [Z.eqb].
  unfold bind, fs_rename, ret. cbn -[Body.mux_tmp Body.conv_cmd].
  rewrite Hc, lookup_insert_eq.
  destruct (Py.seq (Body.mux_tmp fpo) fpo); eexists; split; reflexivity.
Qed.

(** one failed attempt: its temp output and its target are gone before the next *)
Lemma remux_step_fail (na e : string) (rest ups : list string) (w : world) :
  Obs.conv_ok E vid e na = false ->
  exists w1,
    Body.remux_inner E yi vid na (e :: rest) ups w = Body.remux_inner E yi vid na rest ups w1
    /\ files w1 = delete (vid ++ e)%string (delete (Body.mux_tmp (vid ++ e)%string) (files w))
    /\ calls w1 = calls w ++ [Body.conv_cmd vid (vid ++ e)%string na].
Proof.
  intros Hf. unfold Obs.conv_ok in Hf. apply Z.eqb_neq in Hf.
  cbn [Body.remux_inner].
  erewrite bind_inr by reflexivity.
  erewrite bind_inr by (apply fmtconv_fail; exact Hf).
  rewrite errchk_fst. apply Z.eqb_neq in Hf. rewrite Hf. cbn [negb].
  erewrite bind_inr by reflexivity.
  erewrite bind_inr by reflexivity.
  eexists. split; [reflexivity|]. split; reflexivity.
Qed.


Lemma remux_inner_all_fail (na : string) (exts ups : list string) (w : world) :
  Obs.first_ok E vid (Obs.atts_of na exts) = None ->
  exists w', Body.remux_inner E yi vid na exts ups w = (inr (false, ups), w')
    /\ (forall p, In p (Obs.arts_of vid (Obs.atts_of na exts)) -> files w' !! p = None)
    /\ (forall p, ~ In p (Obs.arts_of vid (Obs.atts_of na exts)) -> files w' !! p = files w !! p)
    /\ calls w' = calls w ++ Obs.chain_calls E vid (Obs.atts_of na exts).
Proof.
  revert w. induction exts as [|e rest IH]; intros w Hn.
  - exists w. split; [reflexivity|]. split; [intros p []|]. split; [reflexivity|].
    now rewrite app_nil_r.
  - cbn [Obs.atts_of map Obs.first_ok] in Hn |- *.
    destruct (Obs.conv_ok E vid e na) eqn:Hc; [discriminate|].
    destruct (remux_step_fail na e rest ups w Hc) as (w1 & Heq & Hf & Hcl).
    destruct (IH w1 Hn) as (w' & Heq' & Hin & Hout & Hcl').
    exists w'. rewrite Heq. split; [exact Heq'|].
    cbn [Obs.arts_of flat_map] in *.
    split; [|split].
    + intros p Hp. simpl in Hp. fold (Obs.arts_of vid (Obs.atts_of na rest)) in Hp.
      destruct (in_dec string_dec p (Obs.arts_of vid (Obs.atts_of na rest))) as [Hi|Hi].
      * now apply Hin.
      * rewrite Hout, Hf by exact Hi.
        destruct Hp as [<-|[<-|Hp]]; [|apply lookup_delete_eq|contradiction].
        rewrite lookup_delete. case_decide; [reflexivity|apply lookup_delete_eq].
    + intros p Hp. simpl in Hp. fold (Obs.arts_of vid (Obs.atts_of na rest)) in Hp.
      rewrite Hout by tauto. rewrite Hf.
      rewrite !lookup_delete_ne by tauto. reflexivity.
    + rewrite Hcl', Hcl. cbn [Obs.chain_calls]. rewrite Hc, <- app_assoc. reflexivity.
Qed.


Lemma remux_inner_spec (na : string) (exts ups : list string) (w : world) :
  Obs.writes_on_success E ->
  exists w', Body.remux_inner E yi vid na exts ups w = (inr (Obs.chain_result E vid (Obs.atts_of na exts) ups), w')
    /\ calls w' = calls w ++ Obs.chain_calls E vid (Obs.atts_of na exts).
Proof.
  intros Hw. revert w. induction exts as [|e rest IH]; intros w.
  - exists w. split; [reflexivity|]. now rewrite app_nil_r.
  - unfold Obs.chain_result. cbn [Obs.atts_of map Obs.first_ok Obs.chain_calls].
    destruct (Obs.conv_ok E vid e na) eqn:Hc.
    + unfold Obs.conv_ok in Hc. apply Z.eqb_eq in Hc.
      cbn [Body.remux_inner].
      erewrite bind_inr by reflexivity.
      match goal with |- context [bind (Body.fmtconv E _ _ _) _ ?w0] =>
        destruct (fmtconv_ok vid (vid ++ e)%string na w0 Hw Hc) as (w1 & Hr & Hcl) end.
      erewrite bind_inr by exact Hr.
      rewrite errchk_fst, Hc. cbn [Z.eqb negb].
      erewrite bind_inr by reflexivity.
      eexists. split; [reflexivity|]. simpl. rewrite Hcl. reflexivity.
    + destruct (remux_step_fail na e rest ups w Hc) as (w1 & Heq & _ & Hcl).
      destruct (IH w1) as (w' & Heq' & Hcl').
      exists w'. rewrite Heq. split; [exact Heq'|].
      rewrite Hcl', Hcl, <- app_assoc. reflexivity.
Qed.

Lemma first_ok_app (l1 l2 : list (string * string)) :
  Obs.first_ok E vid (l1 ++ l2)
  = match Obs.first_ok E vid l1 with Some e => Some e | None => Obs.first_ok E vid l2 end.
Proof.
  induction l1 as [|[e na] l1 IH]; [reflexivity|].
  cbn. destruct (Obs.conv_ok E vid e na); [reflexivity|exact IH].
Qed.

Lemma chain_calls_app (l1 l2 : list (string * string)) :
  Obs.chain_calls E vid (l1 ++ l2)
  = Obs.chain_calls E vid l1
    ++ match Obs.first_ok E vid l1 with Some _ => [] | None => Obs.chain_calls E vid l2 end.
Proof.
  induction l1 as [|[e na] l1 IH]; [reflexivity|].
  cbn. destruct (Obs.conv_ok E vid e na); [reflexivity|]. now rewrite IH.
Qed.

Lemma remux_outer_spec (noatts ups : list string) (w : world) :
  Obs.writes_on_success E ->
  exists w', Body.remux_outer E yi vid noatts ups w = (inr (Obs.chain_result E vid (Obs.outer_atts noatts) ups), w')
    /\ calls w' = calls w ++ Obs.chain_calls E vid (Obs.outer_atts noatts).
Proof.
  intros Hw. revert w. induction noatts as [|na rest IH]; intros w.
  - exists w. split; [reflexivity|]. now rewrite app_nil_r.
  - destruct (remux_inner_spec na [".mp4"; ".webm"]%string ups w Hw) as (w1 & Hr & Hcl).
    cbn [Body.remux_outer]. erewrite bind_inr by exact Hr.
    unfold Obs.outer_atts. cbn [flat_map]. fold (Obs.outer_atts rest).
    unfold Obs.chain_result in *. rewrite first_ok_app, chain_calls_app.
    destruct (Obs.first_ok E vid (Obs.atts_of na [".mp4"; ".webm"]%string)) as [e|] eqn:Hf.
    + cbn [fst]. eexists. split; [reflexivity|]. now rewrite Hcl, app_nil_r.
    + cbn [fst]. destruct (IH w1) as (w' & Hr' & Hcl').
      exists w'. split; [exact Hr'|]. rewrite Hcl', Hcl, <- app_assoc. reflexivity.
Qed.


Lemma arts_of_app (l1 l2 : list (string * string)) :
  Obs.arts_of vid (l1 ++ l2) = Obs.arts_of vid l1 ++ Obs.arts_of vid l2.
Proof. apply flat_map_app. Qed.

Lemma remux_outer_all_fail (noatts ups : list string) (w : world) :
  Obs.first_ok E vid (Obs.outer_atts noatts) = None ->
  exists w', Body.remux_outer E yi vid noatts ups w = (inr (false, ups), w')
    /\ (forall p, In p (Obs.arts_of vid (Obs.outer_atts noatts)) -> files w' !! p = None)
    /\ (forall p, ~ In p (Obs.arts_of vid (Obs.outer_atts noatts)) -> files w' !! p = files w !! p).
Proof.
  revert w. induction noatts as [|na rest IH]; intros w Hn.
  - exists w. split; [reflexivity|]. split; [intros p []|]. reflexivity.
  - unfold Obs.outer_atts in Hn |- *. cbn [flat_map] in Hn |- *. fold (Obs.outer_atts rest) in Hn |- *.
    rewrite first_ok_app in Hn.
    destruct (Obs.first_ok E vid (Obs.atts_of na [".mp4"; ".webm"]%string)) eqn:H1; [discriminate|].
    destruct (remux_inner_all_fail na [".mp4"; ".webm"]%string ups w H1) as (w1 & Hr & Hin1 & Hout1 & _).
    destruct (IH w1 Hn) as (w' & Hr' & Hin & Hout).
    cbn [Body.remux_outer]. erewrite bind_inr by exact Hr. cbn [fst].
    exists w'. split; [exact Hr'|]. rewrite arts_of_app. split.
    + intros p Hp. apply in_app_or in Hp.
      destruct (in_dec string_dec p (Obs.arts_of vid (Obs.outer_atts rest))) as [Hi|Hi]; [now apply Hin|].
      rewrite Hout by exact Hi. apply Hin1. tauto.
    + intros p Hp. rewrite Hout, Hout1; [reflexivity| |]; intros Hi; apply Hp; apply in_or_app; tauto.
Qed.

Lemma fmtsplit_go_spec (fpi : string) (outs : list (list string * string)) (last : Z * string) (w : world) :
  Z.eqb (fst last) 0 = true ->
  exists r w', Body.fmtsplit_go E fpi outs last w = (inr r, w')
    /\ Z.eqb (fst r) 0 = forallb (Obs.split_step_ok E fpi) outs
    /\ calls w' = calls w ++ Obs.split_calls_go E fpi outs
    /\ (forall p, ~ In p (map snd outs) -> files w' !! p = files w !! p).
Proof.
  revert last w. induction outs as [|o rest IH]; intros last w Hl.
  - exists last, w. split; [reflexivity|]. split; [exact Hl|]. split; [now rewrite app_nil_r|].
    reflexivity.
  - cbn [Body.fmtsplit_go]. erewrite bind_inr by reflexivity.
    rewrite errchk_fst. cbn [forallb Obs.split_calls_go].
    destruct (Obs.split_step_ok E fpi o) eqn:Hz;
      unfold Obs.split_step_ok in Hz; rewrite Hz; cbn [negb andb].
    + match goal with |- context [Body.fmtsplit_go E fpi rest ?l ?w0] =>
        destruct (IH l w0) as (r & w' & Hr & Hok & Hcl & Hf); [now rewrite errchk_fst|] end.
      exists r, w'. split; [exact Hr|]. split; [exact Hok|]. split.
      * rewrite Hcl. cbn [calls]. now rewrite <- app_assoc.
      * intros p Hp. rewrite Hf by (simpl in Hp; tauto). cbn [files].
        destruct (t_out (tool E (Body.split_cmd fpi o))); [|reflexivity].
        apply lookup_insert_ne. simpl in Hp. tauto.
    + eexists _, _. split; [reflexivity|]. split; [now rewrite errchk_fst|]. split; [reflexivity|].
      intros p Hp. cbn [files].
      destruct (t_out (tool E (Body.split_cmd fpi o))); [|reflexivity].
      apply lookup_insert_ne. simpl in Hp. tauto.
Qed.

Lemma split_fallback_spec (md : gmap string string) (ups : list string) (w : world) :
  let '(fpv, fpa) := Body.split_paths vid md in
  exists w', Body.split_fallback E yi vid md ups w
    = (inr (if Obs.split_ok E vid md then ups ++ [fpv; fpa] else ups), w')
    /\ calls w' = calls w ++ Obs.split_calls E vid md
    /\ (Obs.split_ok E vid md = false ->
        files w' !! fpv = None /\ files w' !! fpa = None
        /\ forall p, p <> fpv -> p <> fpa -> files w' !! p = files w !! p).
Proof.
  unfold Body.split_fallback, Obs.split_ok, Obs.split_calls.
  destruct (Body.split_paths vid md) as [fpv fpa].
  erewrite bind_inr by reflexivity. unfold Body.fmtsplit.
  match goal with |- context [bind (Body.fmtsplit_go E _ _ _) _ ?w0] =>
    destruct (fmtsplit_go_spec vid (Body.split_outs fpv fpa) (0, ""%string) w0 eq_refl)
      as (r & w1 & Hr & Hok & Hcl & Hf) end.
  erewrite bind_inr by exact Hr. rewrite <- Hok.
  assert (Hsn : map snd (Body.split_outs fpv fpa) = [fpa; fpv]) by reflexivity.
  rewrite Hsn in Hf.
  destruct (fst r =? 0); cbn [negb].
  - erewrite bind_inr by reflexivity. eexists. split; [reflexivity|].
    split; [exact Hcl|]. discriminate.
  - do 3 (erewrite bind_inr by reflexivity). eexists. split; [reflexivity|].
    split; [exact Hcl|]. intros _. cbn [files set_files].
    split; [|split].
    + rewrite lookup_delete. case_decide; [reflexivity|apply lookup_delete_eq].
    + apply lookup_delete_eq.
    + intros p H1 H2. rewrite !lookup_delete_ne by congruence.
      rewrite Hf; [reflexivity|]. simpl. intuition congruence.
Qed.

End Remux.

(** C1 (amended): when the file needs normalising and ffmpeg writes its
    output whenever it exits 0, [normalize] runs the remux attempts in the
    order of the two loops: [.mp4] with attachments, [.webm] with
    attachments, [.mp4] with [-map -0:t], [.webm] with [-map -0:t]. It stops
    at the first success, which adds [vid_fp + ext] to the list, and runs
    the split (audio, then video) only when all four have failed. *)
Theorem C1_remux_order (E : env) (yi vid : string) (md : gmap string string) (ups : list string)
  (w : world) :
  Obs.writes_on_success E ->
  fst (Body.normalize E yi vid md true ups w) = inr (Obs.normalized_ups E vid md ups)
  /\ calls (snd (Body.normalize E yi vid md true ups w))
     = calls w ++ Obs.chain_calls E vid Obs.remux_order
       ++ match Obs.first_ok E vid Obs.remux_order with
          | Some _ => [] | None => Obs.split_calls E vid md end.
Proof.
  intros Hw. unfold Body.normalize, Body.remux_loop.
  destruct (remux_outer_spec E yi vid [""; "-map -0:t"]%string ups w Hw) as (w1 & Hr & Hcl).
  change (Obs.outer_atts [""; "-map -0:t"]%string) with Obs.remux_order in Hr, Hcl.
  erewrite bind_inr by exact Hr.
  unfold Obs.chain_result, Obs.normalized_ups in *.
  destruct (Obs.first_ok E vid Obs.remux_order) as [e|].
  - split; [reflexivity|]. cbn [fst snd ret]. now rewrite Hcl, app_nil_r.
  - cbn [fst]. pose proof (split_fallback_spec E yi vid md ups w1) as Hs.
    destruct (Body.split_paths vid md) as [fpv fpa].
    destruct Hs as (w2 & Hr2 & Hcl2 & _). rewrite Hr2.
    split; [reflexivity|]. cbn [snd]. now rewrite Hcl2, Hcl, app_assoc.
Qed.

(** C6: a failed remux attempt removes its temp output [mux-<name>] and its
    target before the next attempt runs; when all four attempts fail, none
    of their temp outputs or targets is left, no other file was touched,
    and [normalize] goes on with the split; a failed split removes both of
    its outputs and touches no other file. *)
Theorem C6_failed_attempts_cleaned (E : env) (yi vid : string) (md : gmap string string)
  (ups : list string) (w : world) :
  (forall na e rest ups' w', Obs.conv_ok E vid e na = false ->
     exists w1, Body.remux_inner E yi vid na (e :: rest) ups' w'
                = Body.remux_inner E yi vid na rest ups' w1
       /\ files w1 = delete (vid ++ e)%string (delete (Body.mux_tmp (vid ++ e)%string) (files w')))
  /\ (Obs.first_ok E vid Obs.remux_order = None ->
      exists w1, Body.remux_loop E yi vid ups w = (inr (false, ups), w1)
        /\ (forall p, In p (Obs.remux_artifacts vid) -> files w1 !! p = None)
        /\ (forall p, ~ In p (Obs.remux_artifacts vid) -> files w1 !! p = files w !! p)
        /\ Body.normalize E yi vid md true ups w = Body.split_fallback E yi vid md ups w1)
  /\ (Obs.split_ok E vid md = false ->
      let '(fpv, fpa) := Body.split_paths vid md in
      exists w2, Body.split_fallback E yi vid md ups w = (inr ups, w2)
        /\ files w2 !! fpv = None /\ files w2 !! fpa = None
        /\ forall p, p <> fpv -> p <> fpa -> files w2 !! p = files w !! p).
Proof.
  split; [|split].
  - intros na e rest ups' w' Hc.
    destruct (remux_step_fail E yi vid na e rest ups' w' Hc) as (w1 & H1 & H2 & _).
    exists w1. split; assumption.
  - intros Hn. change Obs.remux_order with (Obs.outer_atts [""; "-map -0:t"]%string) in Hn.
    destruct (remux_outer_all_fail E yi vid [""; "-map -0:t"]%string ups w Hn)
      as (w1 & Hr & Hin & Hout).
    change (Obs.arts_of vid (Obs.outer_atts [""; "-map -0:t"]%string)) with (Obs.remux_artifacts vid)
      in Hin, Hout.
    exists w1. split; [exact Hr|]. split; [exact Hin|]. split; [exact Hout|].
    unfold Body.normalize, Body.remux_loop. erewrite bind_inr by exact Hr. reflexivity.
  - intros Hs. pose proof (split_fallback_spec E yi vid md ups w) as Hf.
    destruct (Body.split_paths vid md) as [fpv fpa].
    destruct Hf as (w2 & Hr & _ & Hfail). rewrite Hs in Hr.
    exists w2. split; [exact Hr|]. exact (Hfail Hs).
Qed.

(** C1 (counterexample): when every remux fails, the second attempt is the
    [.webm] remux with attachments, not the [.mp4] one without them. *)
Lemma C1_second_attempt_is_webm :
  nth_error (calls (snd (Body.normalize fail_env "y" "/v/a.mkv" ∅ true [] mkv_world))) 1
  = Some (Body.conv_cmd "/v/a.mkv" "/v/a.mkv.webm" "")
  /\ Body.conv_cmd "/v/a.mkv" "/v/a.mkv.webm" "" <> Body.conv_cmd "/v/a.mkv" "/v/a.mkv.mp4" "-map -0:t".
Proof. split; [vm_compute; reflexivity | vm_compute; discriminate]. Qed.

Lemma webm_env_writes : Obs.writes_on_success webm_env.
Proof.
  intros cmd. unfold webm_env; cbn [tool].
  destruct (_ && _); cbn; [eexists; reflexivity | discriminate].
Qed.

Lemma C1_remux_order_witness :
  fst (Body.normalize webm_env "y" "/v/a.mkv" ∅ true [] mkv_world) = inr ["/v/a.mkv.webm"%string]
  /\ calls (snd (Body.normalize webm_env "y" "/v/a.mkv" ∅ true [] mkv_world))
     = map (fun '(e, na) => Body.conv_cmd "/v/a.mkv" ("/v/a.mkv" ++ e) na) Obs.remux_order.
Proof.
  destruct (C1_remux_order webm_env "y" "/v/a.mkv" ∅ [] mkv_world webm_env_writes) as [H1 H2].
  split; [rewrite H1 | rewrite H2]; vm_compute; reflexivity.
Defined.

Lemma C6_failed_attempts_cleaned_witness :
  exists w1, Body.remux_loop fail_env "y" "/v/a.mkv" [] mkv_world = (inr (false, []), w1)
    /\ files w1 !! "/v/mux-a.mkv.mp4"%string = None /\ files w1 !! "/v/a.mkv"%string = Some "data"%string.
Proof.
  destruct (C6_failed_attempts_cleaned fail_env "y" "/v/a.mkv" ∅ [] mkv_world) as (_ & H2 & _).
  destruct (H2 ltac:(vm_compute; reflexivity)) as (w1 & Hr & Hin & Hout & _).
  exists w1. split; [exact Hr|]. split.
  - apply Hin. vm_compute. tauto.
  - rewrite Hout; [vm_compute; reflexivity|]. vm_compute. intuition discriminate.
Defined.

(* ------------------------------------------------------------------ *)
(** ** Where the id comes from, and the idempotency flag *)

Section Ident.

Lemma substring_0_firstn (n : nat) (s : string) :
  list_ascii_of_string (String.substring 0 n s) = firstn n (list_ascii_of_string s).
Proof.
  revert n. induction s as [|c s IH]; intros [|n]; simpl; try reflexivity.
  now rewrite IH.
Qed.

Lemma length_list_ascii (s : string) : String.length s = length (list_ascii_of_string s).
Proof. induction s as [|c s IH]; simpl; congruence. Qed.

Lemma firstn_removelast (n : nat) (l : list ascii) :
  (n <= length (removelast l))%nat -> firstn n (removelast l) = firstn n l.
Proof.
  intros Hn. destruct l as [|x l'] using rev_ind; [reflexivity|].
  rewrite removelast_last in *. rewrite firstn_app.
  replace (n - length l')%nat with 0%nat by lia. now rewrite app_nil_r.
Qed.

Lemma dir_conv_core_take (l : list ascii) :
  Hook.dir_conv_core l = true ->
  length (firstn 11 l) = 11%nat /\ forallb Py.is_word_dash (firstn 11 l) = true.
Proof.
  unfold Hook.dir_conv_core. intros H.
  apply andb_true_iff in H as [H _]. apply andb_true_iff in H as [H _].
  apply andb_true_iff in H as [Hl Hw]. apply Nat.eqb_eq in Hl.
  split; [rewrite firstn_length_le; lia | exact Hw].
Qed.

(** a directory named by the convention yields an 11-character [[\\w-]] id *)
Lemma dir_conv_take (s : string) :
  Hook.dir_conv s = true ->
  String.length (str_take 11 s) = 11%nat /\ Py.all_chars Py.is_word_dash (str_take 11 s) = true.
Proof.
  unfold str_take, Py.all_chars. rewrite length_list_ascii, substring_0_firstn.
  unfold Hook.dir_conv. intros H. apply orb_true_iff in H as [H|H].
  - now apply dir_conv_core_take.
  - apply andb_true_iff in H as [_ H].
    assert (Hl : length (removelast (list_ascii_of_string s)) = 25%nat).
    { unfold Hook.dir_conv_core in H. repeat (apply andb_true_iff in H as [H _]).
      now apply Nat.eqb_eq. }
    rewrite <- firstn_removelast by lia. now apply dir_conv_core_take.
Qed.

(** the file-name pattern yields an 11-character [[\\w-]] id *)
Lemma fn_search_token (l : list ascii) (g : string) :
  Hook.fn_search l = Some g ->
  String.length g = 11%nat /\ Py.all_chars Py.is_word_dash g = true.
Proof.
  induction l as [|c rest IH]; [discriminate|]. cbn [Hook.fn_search].
  destruct (Hook.fn_match_at (c :: rest)) eqn:Hm; [|exact IH].
  intros Hg. injection Hg as <-.
  unfold Py.all_chars. rewrite length_list_ascii, list_ascii_of_string_of_list_ascii.
  unfold Hook.fn_match_at in Hm.
  repeat rewrite andb_true_iff in Hm. destruct Hm as [[[[_ Hw] Hl] _] _].
  apply Nat.leb_le in Hl. split; [rewrite firstn_length_le; lia | exact Hw].
Qed.

Lemma seq_empty_len11 (s : string) : String.length s = 11%nat -> Py.seq s "" = false.
Proof. intros H. apply String.eqb_neq. intros ->. discriminate. Qed.

Lemma resolve_rest_spec (vid flag yi subdir : string) (w : world) :
  Py.second_last_opt (Py.split vid "/") = Some subdir ->
  exists w', Hook.resolve_rest vid flag yi w
    = (inr (if negb (Py.seq yi "") then yi
            else if Hook.dir_conv subdir then str_take 11 subdir
            else match Hook.fn_search (list_ascii_of_string vid) with Some g => g | None => ""%string end), w')
    /\ files w' = (if Hook.dir_conv subdir then <[flag := "a"%string]> (files w) else files w)
    /\ calls w' = calls w /\ notes w' = notes w.
Proof.
  intros Hs. unfold Hook.resolve_rest. rewrite Hs.
  destruct (Hook.dir_conv subdir) eqn:Hd; destruct (Py.seq yi "") eqn:He; cbn [negb].
  - erewrite bind_inr by (erewrite bind_inr by reflexivity; reflexivity).
    destruct (dir_conv_take subdir Hd) as [Hl _]. rewrite (seq_empty_len11 _ Hl).
    eexists. split; [reflexivity|]. split; [reflexivity|]. split; reflexivity.
  - erewrite bind_inr by (erewrite bind_inr by reflexivity; reflexivity). rewrite He.
    eexists. split; [reflexivity|]. split; [reflexivity|]. split; reflexivity.
  - erewrite bind_inr by reflexivity. rewrite He.
    destruct (Hook.fn_search (list_ascii_of_string vid));
      (eexists; split; [reflexivity|]; split; [reflexivity|]; split; reflexivity).
  - erewrite bind_inr by reflexivity. rewrite He.
    eexists. split; [reflexivity|]. split; [reflexivity|]. split; reflexivity.
Qed.

Lemma resolve_id_spec (vid : string) (md : gmap string string) (flag subdir : string) (w : world) :
  Py.second_last_opt (Py.split vid "/") = Some subdir ->
  exists w', Hook.resolve_id vid md flag w = (inr (Obs.resolved_id vid md subdir), w')
    /\ files w' = (if Hook.dir_conv subdir then <[flag := "a"%string]> (files w) else files w)
    /\ calls w' = calls w /\ notes w' = notes w.
Proof.
  intros Hs. unfold Hook.resolve_id, Obs.resolved_id.
  destruct (Py.contains (default "" (md !! "comment")) "youtube.com/watch?v=");
    erewrite bind_inr by reflexivity;
    exact (resolve_rest_spec _ _ _ _ _ Hs).
Qed.
End Ident.

(** C4 (amended): when the parent directory of the upload matches
    [^[\w-]{11}-[0-9]{13}$], [resolve_id] writes ["a"] to the flag file,
    whichever source gave the id (the comment included); when it does not
    match, the flag file is left as it was; no other file is touched. *)
Theorem C4_flag_iff_dir_conv (vid : string) (md : gmap string string) (flag subdir : string)
  (w : world) :
  Py.second_last_opt (Py.split vid "/") = Some subdir ->
  exists w', Hook.resolve_id vid md flag w = (inr (Obs.resolved_id vid md subdir), w')
    /\ files w' !! flag = (if Hook.dir_conv subdir then Some "a"%string else files w !! flag)
    /\ (forall p, p <> flag -> files w' !! p = files w !! p).
Proof.
  intros Hs. destruct (resolve_id_spec vid md flag subdir w Hs) as (w' & Hr & Hf & _).
  exists w'. split; [exact Hr|]. rewrite Hf.
  destruct (Hook.dir_conv subdir).
  - split; [apply lookup_insert_eq|]. intros p Hp. now apply lookup_insert_ne.
  - split; [reflexivity|]. intros p _. reflexivity.
Qed.

(** C4 (counterexample): the id comes from the comment, not from the
    directory, and the flag is still created. *)
Lemma C4_comment_id_sets_flag :
  fst (Hook.resolve_id conv_vid cmt_md conv_flag (mkWorld ∅ [] [] [])) = inr "dQw4w9WgXcQ"%string
  /\ files (snd (Hook.resolve_id conv_vid cmt_md conv_flag (mkWorld ∅ [] [] []))) !! conv_flag
     = Some "a"%string
  /\ str_take 11 "AAAAAAAAAAA-1234567890123" <> "dQw4w9WgXcQ"%string.
Proof. split; [|split]; [vm_compute; reflexivity | vm_compute; reflexivity | vm_compute; discriminate]. Qed.

Lemma C4_flag_iff_dir_conv_witness :
  files (snd (Hook.resolve_id conv_vid cmt_md conv_flag (mkWorld ∅ [] [] []))) !! conv_flag
  = Some "a"%string.
Proof.
  destruct (C4_flag_iff_dir_conv conv_vid cmt_md conv_flag "AAAAAAAAAAA-1234567890123"
              (mkWorld ∅ [] [] []) ltac:(vm_compute; reflexivity)) as (w' & Hr & Hf & _).
  rewrite Hr. cbn [snd]. rewrite Hf. vm_compute. reflexivity.
Defined.

(** C5 (amended): the id is the first non-empty one of: the comment's
    [split("v=")[1].split("&")[0]] (when it holds the watch URL), the first
    11 characters of a conventional directory name, the bracketed token of
    the file name; a later source never replaces an earlier one. The last two
    are 11 characters of [[\w-]]; the comment's id is not checked at all. *)
Theorem C5_id_sources (vid : string) (md : gmap string string) (flag subdir : string) (w : world) :
  Py.second_last_opt (Py.split vid "/") = Some subdir ->
  let cmt := default "" (md !! "comment") in
  let yi := Obs.resolved_id vid md subdir in
  fst (Hook.resolve_id vid md flag w) = inr yi
  /\ (Py.contains cmt "youtube.com/watch?v=" = true -> Hook.comment_id cmt <> ""%string ->
      yi = Hook.comment_id cmt)
  /\ (yi <> ""%string ->
      (Py.contains cmt "youtube.com/watch?v=" = true /\ yi = Hook.comment_id cmt)
      \/ (String.length yi = 11%nat /\ Py.all_chars Py.is_word_dash yi = true)).
Proof.
  intros Hs cmt yi.
  destruct (resolve_id_spec vid md flag subdir w Hs) as (w' & Hr & _).
  split; [now rewrite Hr|]. subst yi cmt. unfold Obs.resolved_id.
  set (cmt := default "" (md !! "comment")).
  split.
  - intros Hc Hn. rewrite Hc. apply String.eqb_neq in Hn. unfold Py.seq. now rewrite Hn.
  - destruct (Py.contains cmt "youtube.com/watch?v=") eqn:Hc.
    + destruct (Py.seq (Hook.comment_id cmt) "") eqn:He; cbn [negb].
      * destruct (Hook.dir_conv subdir) eqn:Hd.
        -- intros _. right. now apply dir_conv_take.
        -- destruct (Hook.fn_search (list_ascii_of_string vid)) eqn:Hf; [|contradiction].
           intros _. right. exact (fn_search_token _ _ Hf).
      * intros _. left. split; reflexivity.
    + cbn [Py.seq String.eqb negb].
      destruct (Hook.dir_conv subdir) eqn:Hd.
      * intros _. right. now apply dir_conv_take.
      * destruct (Hook.fn_search (list_ascii_of_string vid)) eqn:Hf; [|contradiction].
        intros _. right. exact (fn_search_token _ _ Hf).
Qed.

(** C5 (counterexample): a comment with a short id gives a 3-character id. *)
Lemma C5_short_comment_id :
  fst (Hook.resolve_id "/up/v/x.mp4" short_md "/up/v/.processed" (mkWorld ∅ [] [] []))
  = inr "abc"%string
  /\ String.length "abc" <> 11%nat.
Proof. split; [vm_compute; reflexivity | discriminate]. Qed.

Lemma C5_id_sources_witness :
  fst (Hook.resolve_id conv_vid ∅ conv_flag (mkWorld ∅ [] [] [])) = inr "AAAAAAAAAAA"%string
  /\ String.length "AAAAAAAAAAA" = 11%nat.
Proof.
  destruct (C5_id_sources conv_vid ∅ conv_flag "AAAAAAAAAAA-1234567890123" (mkWorld ∅ [] [] [])
              ltac:(vm_compute; reflexivity)) as [H1 _].
  split; [rewrite H1; vm_compute; reflexivity | reflexivity].
Defined.

(* ------------------------------------------------------------------ *)
(** ** The quarantine gate *)

Section Frame.
Variable vid : string.















End Frame.




(* ------------------------------------------------------------------ *)
(** ** The renaming stage *)

Section Rename.
Local Open Scope string_scope.

Lemma log_skips_eq (yi : string) (sk : list string) (w : world) :
  Body.log_skips yi sk w
  = (inr tt, mkWorld (files w) (wlog w ++ map (Obs.skip_line yi) sk)%list (notes w) (calls w)).
Proof.
  revert w; induction sk as [|fn rest IH]; intros w; simpl.
  - destruct w; cbn; now rewrite app_nil_r.
  - unfold bind at 1; cbn [log]. rewrite IH. cbn. now rewrite <- app_assoc.
Qed.

Lemma rename_go_ok (yi fdir : string) (md : gmap string string) (ups : list string) :
  forall vid ups2 w names v w',
  Body.rename_go yi fdir md ups vid ups2 w = (inr (names, v), w') ->
  names = (ups2 ++ map (Body.final_name yi md) ups)%list
  /\ wlog w' = (wlog w ++ map (Obs.post_line yi md) ups)%list
  /\ notes w' = notes w /\ calls w' = calls w.
Proof.
  induction ups as [|fp rest IH]; intros vid ups2 w names v w' H; simpl in H.
  - unfold ret in H. inversion H; subst. now rewrite !app_nil_r.
  - unfold bind at 1 in H. cbn [log] in H.
    unfold bind, fs_rename in H. cbn [files] in H.
    destruct (files w !! fp) eqn:Hf; [|discriminate].
    destruct (Py.seq fp _);
      apply IH in H as (-> & Hl & Hn & Hc); rewrite <- app_assoc; cbn;
      (split; [reflexivity|]); rewrite Hl, Hn, Hc; cbn; now rewrite <- app_assoc.
Qed.

Lemma kept_matches (ups : list string) (x : string) :
  x ∈ Body.kept ups -> x ∈ ups /\ Body.wl_match (Py.lower x) = true.
Proof.
  unfold Body.kept. rewrite list_elem_of_filter. intros [Hn Hx]. split; [exact Hx|].
  destruct (Body.wl_match (Py.lower x)) eqn:Hw; [reflexivity|exfalso].
  assert (He : existsb (Py.seq x) (Body.skipped ups) = true).
  { apply existsb_exists. exists x. split.
    - apply list_elem_of_In. unfold Body.skipped. apply list_elem_of_filter.
      split; [rewrite Hw; exact I | exact Hx].
    - apply String.eqb_refl. }
  rewrite He in Hn. exact Hn.
Qed.

Lemma skipped_iff (ups : list string) (x : string) :
  x ∈ Body.skipped ups <-> x ∈ ups /\ Body.wl_match (Py.lower x) = false.
Proof.
  unfold Body.skipped. rewrite list_elem_of_filter.
  destruct (Body.wl_match (Py.lower x)); cbn; intuition (try discriminate; try contradiction).
Qed.

End Rename.

(** C2: every entry the renaming stage keeps matches the whitelist
    pattern (searched in the lower-cased path), and the entries that do
    not match are exactly the skipped ones. When the stage succeeds it
    returns the final names of the kept entries, in order, and of the
    skipped entries it only logs a [skip] line; it runs no tool and posts
    nothing. *)
Theorem C2_rename_stage (yi fdir vid : string) (md : gmap string string) (ups : list string)
  (w : world) :
  (forall x, x ∈ Body.kept ups -> x ∈ ups /\ Body.wl_match (Py.lower x) = true)
  /\ (forall x, x ∈ Body.skipped ups <-> x ∈ ups /\ Body.wl_match (Py.lower x) = false)
  /\ (forall names v w', Body.rename_stage yi fdir vid md ups w = (inr (names, v), w') ->
        names = map (Body.final_name yi md) (Body.kept ups)
        /\ wlog w' = (wlog w ++ map (Obs.post_line yi md) (Body.kept ups)
                       ++ map (Obs.skip_line yi) (Body.skipped ups))%list
        /\ notes w' = notes w /\ calls w' = calls w).
Proof.
  split; [exact (kept_matches ups)|]. split; [exact (skipped_iff ups)|].
  intros names v w' H. unfold Body.rename_stage, bind in H.
  destruct (Body.rename_go yi fdir md (Body.kept ups) vid [] w) as [[s|[n' v']] w1] eqn:Hr;
    [discriminate|].
  rewrite log_skips_eq in H. unfold ret in H. cbn in H. inversion H; subst; clear H.
  apply rename_go_ok in Hr as (-> & Hl & Hn & Hc). cbn.
  rewrite Hl, Hn, Hc. now rewrite <- app_assoc.
Qed.

(** C2 (counterexample): the final names need not be distinct. A
    non-streamable MPEG-4 upload [x.mp4] is remuxed to [x.mp4.mp4]; both
    are kept and both are renamed to [dQw4w9WgXcQ.1080.h264.mp4], so the
    remux overwrites the original and the name is shipped twice. *)
Lemma C2_duplicate_final_names :
  fst (Body.body_to_rename remux_env "dQw4w9WgXcQ" "/v/x.mp4" dup_md dup_world)
  = inr (["dQw4w9WgXcQ.1080.h264.mp4"; "dQw4w9WgXcQ.1080.h264.mp4"; "dQw4w9WgXcQ.webp"],
         "/v", "/v/dQw4w9WgXcQ.1080.h264.mp4")%string
  /\ ~ NoDup ["dQw4w9WgXcQ.1080.h264.mp4"; "dQw4w9WgXcQ.1080.h264.mp4"; "dQw4w9WgXcQ.webp"]%string.
Proof.
  split; [vm_compute; reflexivity|].
  intros Hd. apply NoDup_cons in Hd as [Hn _]. apply Hn. constructor.
Qed.

Lemma C2_rename_stage_witness :
  map (Body.final_name "dQw4w9WgXcQ" dup_md) (Body.kept skip_ups)
  = ["dQw4w9WgXcQ.1080.h264.mp4"; "dQw4w9WgXcQ.webp"]%string
  /\ calls (snd (Body.rename_stage "dQw4w9WgXcQ" "/v" "/v/x.mp4" dup_md skip_ups skip_world)) = [].
Proof.
  destruct (C2_rename_stage "dQw4w9WgXcQ" "/v" "/v/x.mp4" dup_md skip_ups skip_world)
    as (_ & _ & H).
  destruct (H ["dQw4w9WgXcQ.1080.h264.mp4"; "dQw4w9WgXcQ.webp"]%string "/v/dQw4w9WgXcQ.1080.h264.mp4"%string
              (snd (Body.rename_stage "dQw4w9WgXcQ" "/v" "/v/x.mp4" dup_md skip_ups skip_world))
              ltac:(vm_compute; reflexivity)) as (Hn & _ & _ & Hc).
  split; [symmetry; exact Hn | exact Hc].
Defined.

(* ------------------------------------------------------------------ *)
(** ** The lock pool: ownership invariant *)

Module LockInv.
Import LockPool.
Local Open Scope nat_scope.

(** the owner of a lock holds it, and a holder is the owner of its lock *)
Definition lock_inv (n : nat) (s : lstate) : Prop :=
  (forall i p, owner s i = Some p -> pc s p = Hold i /\ i < n)
  /\ (forall p i, pc s p = Hold i -> owner s i = Some p).

Lemma lock_inv_init (n : nat) : lock_inv n init.
Proof. split; cbn; intros; discriminate. Qed.

Lemma lock_inv_set_pc (n : nat) (s : lstate) (p : nat) (ph : phase) :
  lock_inv n s -> (forall i, pc s p <> Hold i) -> (forall i, ph <> Hold i) -> lock_inv n (set_pc s p ph).
Proof.
  intros [I1 I2] Hp Hph. split.
  - intros i q Ho. cbn in Ho. destruct (I1 i q Ho) as [Hq Hi]. unfold set_pc, fupd; cbn.
    destruct (Nat.eqb_spec q p); [subst; now destruct (Hp i)|]. auto.
  - intros q i Hq. unfold set_pc, fupd in Hq; cbn in Hq |- *.
    destruct (Nat.eqb_spec q p); [now destruct (Hph i)|]. auto.
Qed.

Lemma lock_inv_step (n : nat) (s s' : lstate) : lock_inv n s -> step n s s' -> lock_inv n s'.
Proof.
  intros HI Hs. destruct Hs as [p s Hp|p i s Hp Hi Ho|p i q s Hp Hi Ho|p i q s Hp Hi Ho|p s Hp|p i s Hp|p s Hp].
  - apply lock_inv_set_pc; [exact HI| |]; intros j; congruence.
  - destruct HI as [I1 I2]. split.
    + intros j q Hq. cbn in Hq |- *. unfold fupd in *.
      destruct (Nat.eqb_spec j i).
      * subst. injection Hq as <-. rewrite Nat.eqb_refl. split; [reflexivity|exact Hi].
      * destruct (I1 j q Hq) as [Hq' Hj]. destruct (Nat.eqb_spec q p); [subst; congruence|].
        split; [exact Hq'|exact Hj].
    + intros q j Hq. cbn in Hq |- *. unfold fupd in *.
      destruct (Nat.eqb_spec q p).
      * subst. injection Hq as <-. now rewrite Nat.eqb_refl.
      * pose proof (I2 q j Hq) as Hoj. destruct (Nat.eqb_spec j i); [subst; congruence|exact Hoj].
  - apply lock_inv_set_pc; [exact HI| |]; intros j; congruence.
  - apply lock_inv_set_pc; [exact HI| |]; intros j; congruence.
  - apply lock_inv_set_pc; [exact HI| |]; intros j; congruence.
  - destruct HI as [I1 I2]. pose proof (I2 p i Hp) as Hop. split.
    + intros j q Hq. cbn in Hq |- *. unfold fupd in *.
      destruct (Nat.eqb_spec j i); [discriminate|].
      destruct (I1 j q Hq) as [Hq' Hj].
      destruct (Nat.eqb_spec q p); [subst; congruence|]. split; [exact Hq'|exact Hj].
    + intros q j Hq. cbn in Hq |- *. unfold fupd in *.
      destruct (Nat.eqb_spec q p); [discriminate|].
      pose proof (I2 q j Hq) as Hoj.
      destruct (Nat.eqb_spec j i); [subst; congruence|exact Hoj].
  - apply lock_inv_set_pc; [exact HI|exact Hp|]; intros j; discriminate.
Qed.

Lemma lock_inv_reachable (n : nat) (s : lstate) : reachable n s -> lock_inv n s.
Proof.
  unfold reachable. apply (rtc_ind_r (lock_inv n) init).
  - apply lock_inv_init.
  - intros y z _ Hyz IH. exact (lock_inv_step n _ _ IH Hyz).
Qed.

End LockInv.

Import LockPool.
Local Open Scope nat_scope.

(** C9: in every reachable state of the lock pool with [len(locks)] locks,
    and for any number of processes, no two processes hold the same lock,
    a holding process owns exactly that one lock, and it keeps it until it
    exits, when the lock is released. *)
Theorem C9_lock_mutex (s : lstate) :
  reachable (length Hook.locks) s ->
  (forall p q i, pc s p = Hold i -> pc s q = Hold i -> p = q)
  /\ (forall p i, pc s p = Hold i ->
        i < length Hook.locks /\ owner s i = Some p
        /\ (forall j, owner s j = Some p -> j = i))
  /\ (forall s' p i, step (length Hook.locks) s s' -> pc s p = Hold i ->
        pc s' p = Hold i \/ (pc s' p = Gone /\ owner s' i = None)).
Proof.
  intros Hr. destruct (LockInv.lock_inv_reachable _ _ Hr) as [I1 I2]. split; [|split].
  - intros p q i Hp Hq. pose proof (I2 p i Hp). pose proof (I2 q i Hq). congruence.
  - intros p i Hp. pose proof (I2 p i Hp) as Ho. destruct (I1 i p Ho) as [_ Hi].
    split; [exact Hi|]. split; [exact Ho|].
    intros j Hj. destruct (I1 j p Hj) as [Hj' _]. congruence.
  - intros s' p i Hs Hp.
    destruct Hs as [p' s0 Hp'|p' i' s0 Hp' Hi' Ho'|p' i' q s0 Hp' Hi' Ho'
      |p' i' q s0 Hp' Hi' Ho'|p' s0 Hp'|p' i' s0 Hp'|p' s0 Hp'];
      cbn; unfold fupd; destruct (Nat.eqb_spec p p') as [<-|Hne].
    all: try (left; exact Hp).
    all: try (exfalso; congruence).
    + right. assert (i' = i) as -> by congruence. now rewrite !Nat.eqb_refl.
Qed.

Lemma C9_lock_mutex_witness :
  pc lk_s8 2 = Sleep
  /\ (forall q, pc lk_s8 q = Hold 1 -> q = 1)
  /\ owner lk_s8 0 = Some 0 /\ owner lk_s8 1 = Some 1.
Proof.
  assert (Hr : reachable (length Hook.locks) lk_s8).
  { unfold reachable.
    apply (rtc_l _ _ lk_s1); [apply st_start; reflexivity|].
    apply (rtc_l _ _ lk_s2); [apply st_get; cbn; (reflexivity || lia)|].
    apply (rtc_l _ _ lk_s3); [apply st_start; reflexivity|].
    apply (rtc_l _ _ lk_s4); [apply (st_busy _ 1 0 0 lk_s3); cbn; (reflexivity || lia)|].
    apply (rtc_l _ _ lk_s5); [apply st_get; cbn; (reflexivity || lia)|].
    apply (rtc_l _ _ lk_s6); [apply st_start; reflexivity|].
    apply (rtc_l _ _ lk_s7); [apply (st_busy _ 2 0 0 lk_s6); cbn; (reflexivity || lia)|].
    apply (rtc_l _ _ lk_s8); [apply (st_busy_last _ 2 1 1 lk_s7); cbn; (reflexivity || lia)|].
    apply rtc_refl. }
  destruct (C9_lock_mutex lk_s8 Hr) as (Hm & _ & _).
  split; [reflexivity|]. split; [intros q Hq; exact (Hm q 1 1 Hq eq_refl)|].
  split; reflexivity.
Defined.


(** In every reachable state of the lock loop, at most as many processes hold a lock as there are lock files. *)
Theorem lock_holders_bound (s : lstate) (ps : list nat) :
  reachable (length Hook.locks) s -> NoDup ps -> (forall p, In p ps -> exists i, pc s p = Hold i) ->
  length ps <= length Hook.locks.
Proof.
  intros Hr Hnd Hh. destruct (LockInv.lock_inv_reachable _ _ Hr) as [I1 I2].
  rewrite <- (length_map (fun p => hold_ix (pc s p)) ps), <- (length_seq (length Hook.locks) 0).
  apply NoDup_incl_length.
  - apply NoDup_map_NoDup_ForallPairs; [|apply NoDup_ListNoDup, Hnd].
    intros p q Hp Hq Heq. destruct (Hh p Hp) as [i Hi]. destruct (Hh q Hq) as [j Hj].
    rewrite Hi, Hj in Heq. cbn in Heq. subst j.
    pose proof (I2 p i Hi). pose proof (I2 q i Hj). congruence.
  - intros i Hi. apply in_map_iff in Hi as (p & <- & Hp). destruct (Hh p Hp) as [i Hi].
    rewrite Hi. change (hold_ix (Hold i)) with i. apply in_seq. destruct (I1 i p (I2 p i Hi)) as [_ Hlt]. lia.
Qed.

Lemma lock_holders_bound_witness :
  NoDup [0; 1] /\ length [0; 1] <= length Hook.locks.
Proof.
  assert (Hr : reachable (length Hook.locks) lk_s8).
  { unfold reachable.
    apply (rtc_l _ _ lk_s1); [apply st_start; reflexivity|].
    apply (rtc_l _ _ lk_s2); [apply st_get; cbn; (reflexivity || lia)|].
    apply (rtc_l _ _ lk_s3); [apply st_start; reflexivity|].
    apply (rtc_l _ _ lk_s4); [apply (st_busy _ 1 0 0 lk_s3); cbn; (reflexivity || lia)|].
    apply (rtc_l _ _ lk_s5); [apply st_get; cbn; (reflexivity || lia)|].
    apply (rtc_l _ _ lk_s6); [apply st_start; reflexivity|].
    apply (rtc_l _ _ lk_s7); [apply (st_busy _ 2 0 0 lk_s6); cbn; (reflexivity || lia)|].
    apply (rtc_l _ _ lk_s8); [apply (st_busy_last _ 2 1 1 lk_s7); cbn; (reflexivity || lia)|].
    apply rtc_refl. }
  assert (Hnd : NoDup [0; 1]) by (apply NoDup_cons; split; [intros Hx; apply list_elem_of_In in Hx; cbn in Hx; lia|apply NoDup_cons; split; [apply not_elem_of_nil|apply NoDup_nil_2]]).
  split; [exact Hnd|].
  apply (lock_holders_bound lk_s8 [0; 1] Hr Hnd).
  intros p [<-|[<-|[]]]; eexists; reflexivity.
Defined.

Section Errchk.
Local Open Scope Z_scope.
Local Open Scope nat_scope.
Local Open Scope string_scope.

Lemma no_nl_app (a b : string) : no_nl (a ++ b) = no_nl a && no_nl b.
Proof. unfold no_nl, Py.all_chars. now rewrite list_ascii_of_string_app, forallb_app. Qed.

Lemma rev_app_chars (s acc : string) :
  list_ascii_of_string (String.rev_app s acc) = (List.rev (list_ascii_of_string s) ++ list_ascii_of_string acc)%list.
Proof.
  revert acc; induction s as [|c s IH]; intros acc; [reflexivity|].
  cbn. rewrite IH. cbn. now rewrite <- app_assoc.
Qed.

Lemma no_nl_rev (s : string) : no_nl (String.rev s) = no_nl s.
Proof.
  unfold no_nl, Py.all_chars, String.rev. rewrite rev_app_chars. cbn. rewrite app_nil_r.
  induction (list_ascii_of_string s) as [|c l IH]; [reflexivity|].
  cbn. rewrite forallb_app, IH. cbn. now rewrite andb_true_r, andb_comm.
Qed.

Lemma split_nl_head (s : string) : forall skip acc,
  no_nl acc = true -> no_nl (hd "" (Py.split_go (String Hook.nl "") s skip acc)) = true.
Proof.
  induction s as [|c s IH]; intros skip acc Ha; cbn [Py.split_go].
  - cbn [hd]. now rewrite no_nl_rev.
  - destruct skip as [|k].
    + cbn [Py.startswith]. replace (Py.startswith s "") with true by (destruct s; reflexivity).
      destruct (Py.ceq Hook.nl c && true) eqn:Hc.
      * cbn [hd]. now rewrite no_nl_rev.
      * apply IH. unfold no_nl, Py.all_chars in *. cbn. rewrite Ha, andb_true_r.
        rewrite andb_true_r in Hc. unfold Py.ceq in *. rewrite Ascii.eqb_sym. now rewrite Hc.
    + now apply IH.
Qed.

Lemma digit_char_no_nl (n : Z) :
  negb (Py.ceq (ascii_of_nat (48 + Z.to_nat (n mod 10))) Hook.nl) = true.
Proof.
  assert (Hb : (Z.to_nat (n mod 10) < 10)%nat).
  { pose proof (Z.mod_pos_bound n 10 ltac:(lia)). lia. }
  destruct (Z.to_nat (n mod 10)) as [|[|[|[|[|[|[|[|[|[|k]]]]]]]]]]; try reflexivity. lia.
Qed.

Lemma digits_go_no_nl (fuel : nat) : forall n acc,
  no_nl acc = true -> no_nl (digits_go fuel n acc) = true.
Proof.
  induction fuel as [|f IH]; intros n acc Ha; cbn -[no_nl]; [exact Ha|].
  assert (Hc : no_nl (String (ascii_of_nat (48 + Z.to_nat (n mod 10))) acc) = true).
  { unfold no_nl, Py.all_chars in *. cbn [list_ascii_of_string forallb]. now rewrite digit_char_no_nl, Ha. }
  destruct (n <? 10)%Z; [exact Hc|now apply IH].
Qed.

Lemma z_to_string_no_nl (z : Z) : no_nl (z_to_string z) = true.
Proof.
  unfold z_to_string. destruct (z <? 0)%Z.
  - rewrite no_nl_app. now rewrite digits_go_no_nl.
  - now apply digits_go_no_nl.
Qed.

(** errchk keeps the return code; its message is empty exactly when rc is 0 and stderr is empty, and never contains a newline. *)
Theorem errchk_message (so se : string) (rc : Z) :
  fst (errchk so se rc) = rc
  /\ (snd (errchk so se rc) = "" <-> rc = 0%Z /\ se = "")
  /\ no_nl (snd (errchk so se rc)) = true.
Proof.
  unfold errchk. destruct (rc =? 0)%Z eqn:Hr; cbn [negb].
  - apply Z.eqb_eq in Hr. subst rc.
    destruct (Py.seq se "") eqn:Hs; cbn [negb fst snd].
    + apply String.eqb_eq in Hs. subst se. split; [reflexivity|]. split; [tauto|reflexivity].
    + split; [reflexivity|]. split.
      * split; [discriminate|]. intros [_ ->]. discriminate.
      * rewrite no_nl_app. apply split_nl_head. reflexivity.
  - apply Z.eqb_neq in Hr. cbn [fst snd]. split; [reflexivity|]. split.
    + split; [discriminate|]. intros [H _]. contradiction.
    + rewrite !no_nl_app, z_to_string_no_nl. apply split_nl_head. reflexivity.
Qed.

End Errchk.

Section Fmtconv.
Local Open Scope Z_scope.
Local Open Scope nat_scope.
Local Open Scope string_scope.

(** After fmtconv returns, the mux- temporary file is gone; on success fpo holds the tool output (or a stale mux- file when the tool wrote none), on failure fpo is untouched, and no other file changes. *)
Theorem fmtconv_no_temp_left (E : env) (fpi fpo na : string) (w w' : world) (r : Z * string) :
  Body.mux_tmp fpo <> fpo ->
  Body.fmtconv E fpi fpo na w = (inr r, w') ->
  files w' !! Body.mux_tmp fpo = None
  /\ (fst r = 0%Z -> files w' !! fpo = match t_out (tool E (Body.conv_cmd fpi fpo na)) with
                                     | Some c => Some c
                                     | None => files w !! Body.mux_tmp fpo
                                     end)
  /\ (fst r <> 0%Z -> files w' !! fpo = files w !! fpo)
  /\ (forall p, p <> fpo -> p <> Body.mux_tmp fpo -> files w' !! p = files w !! p)
  /\ calls w' = (calls w ++ [Body.conv_cmd fpi fpo na])%list.
Proof.
  intros Hne H. unfold Body.fmtconv in H.
  erewrite bind_inr in H by reflexivity.
  rewrite errchk_fst in H.
  set (t := tool E (Body.conv_cmd fpi fpo na)) in *.
  destruct (t_rc t =? 0)%Z eqn:Hrc.
  - apply Z.eqb_eq in Hrc.
    unfold bind, fs_rename, ret in H. cbn -[Body.mux_tmp Body.conv_cmd] in H.
    destruct (t_out t) as [c|] eqn:Ho.
    + rewrite lookup_insert_eq in H. rewrite (seq_false_of_neq _ _ Hne) in H.
      inversion H; subst; clear H. cbn -[Body.mux_tmp Body.conv_cmd].
      rewrite errchk_fst. split; [|split; [|split; [|split]]].
      * rewrite lookup_insert_ne by congruence. apply lookup_delete_eq.
      * intros _. apply lookup_insert_eq.
      * intros Hc. contradiction.
      * intros p H1 H2. rewrite lookup_insert_ne by congruence.
        rewrite lookup_delete_ne by congruence. apply lookup_insert_ne. congruence.
      * reflexivity.
    + destruct (files w !! Body.mux_tmp fpo) eqn:Hf.
      * rewrite (seq_false_of_neq _ _ Hne) in H.
        inversion H; subst; clear H. cbn -[Body.mux_tmp Body.conv_cmd].
        rewrite errchk_fst. split; [|split; [|split; [|split]]].
        -- rewrite lookup_insert_ne by congruence. apply lookup_delete_eq.
        -- intros _. apply lookup_insert_eq.
        -- intros Hc. contradiction.
        -- intros p H1 H2. rewrite lookup_insert_ne by congruence.
           apply lookup_delete_ne. congruence.
        -- reflexivity.
      * discriminate.
  - apply Z.eqb_neq in Hrc.
    unfold bind, try_unlink, modify_files, set_files, ret in H. cbn -[Body.mux_tmp Body.conv_cmd] in H.
    inversion H; subst; clear H. cbn -[Body.mux_tmp Body.conv_cmd].
    rewrite errchk_fst. split; [|split; [|split; [|split]]].
    + apply lookup_delete_eq.
    + intros Hc; contradiction.
    + intros _. rewrite lookup_delete_ne by congruence.
      destruct (t_out t); [apply lookup_insert_ne; congruence|reflexivity].
    + intros p H1 H2. rewrite lookup_delete_ne by congruence.
      destruct (t_out t); [apply lookup_insert_ne; congruence|reflexivity].
    + reflexivity.
Qed.
End Fmtconv.

Section Upload2.
Local Open Scope Z_scope.
Local Open Scope nat_scope.
Local Open Scope string_scope.
Variable fdir : string.

Lemma unlink_all_missing (fns : list string) (w : world) :
  (exists fn, fn ∈ fns /\ files w !! Path.join fdir fn = None) ->
  exists p w', Body.unlink_all fdir fns w = (inl (Crashed ("FileNotFoundError: " ++ p)), w')
    /\ notes w' = notes w /\ calls w' = calls w.
Proof.
  revert w; induction fns as [|fn rest IH]; intros w [f [Hin Hf]].
  - now apply elem_of_nil in Hin.
  - cbn [Body.unlink_all Hook.DRYRUN negb]. unfold bind at 1, fs_unlink.
    destruct (files w !! Path.join fdir fn) as [c|] eqn:Hc.
    + apply elem_of_cons in Hin as [->|Hin]; [congruence|].
      destruct (IH (set_files (delete (Path.join fdir fn) (files w)) w)) as (p & w' & H & Hn & Hcl).
      { exists f. split; [exact Hin|]. cbn. rewrite lookup_delete.
        case_decide; [reflexivity|exact Hf]. }
      exists p, w'. split; [exact H|]. split; [exact Hn|exact Hcl].
    + exists (Path.join fdir fn), w. split; [reflexivity|]. split; reflexivity.
Qed.

Lemma unlink_all_dup (fns : list string) (w : world) :
  ~ NoDup (map (Path.join fdir) fns) ->
  exists p w', Body.unlink_all fdir fns w = (inl (Crashed ("FileNotFoundError: " ++ p)), w')
    /\ notes w' = notes w /\ calls w' = calls w.
Proof.
  revert w; induction fns as [|fn rest IH]; intros w Hd.
  - exfalso. apply Hd. constructor.
  - destruct (files w !! Path.join fdir fn) as [c|] eqn:Hc.
    2:{ apply unlink_all_missing. exists fn. split; [apply list_elem_of_here|exact Hc]. }
    cbn [map] in Hd. rewrite NoDup_cons in Hd.
    cbn [Body.unlink_all Hook.DRYRUN negb].
    assert (Hs : fs_unlink (Path.join fdir fn) w
                 = (inr tt, set_files (delete (Path.join fdir fn) (files w)) w))
      by (unfold fs_unlink; now rewrite Hc).
    erewrite bind_inr by exact Hs.
    destruct (decide (Path.join fdir fn ∈ map (Path.join fdir) rest)) as [Hin|Hnin].
    + destruct (unlink_all_missing rest (set_files (delete (Path.join fdir fn) (files w)) w))
        as (p & w' & H & Hn & Hcl).
      { apply list_elem_of_In, in_map_iff in Hin as [f [Hf Hin]].
        exists f. split; [now apply list_elem_of_In|]. cbn. rewrite Hf. apply lookup_delete_eq. }
      exists p, w'. split; [exact H|]. split; [exact Hn|exact Hcl].
    + destruct (IH (set_files (delete (Path.join fdir fn) (files w)) w)) as (p & w' & H & Hn & Hcl).
      { intros Hn. apply Hd. split; [exact Hnin|exact Hn]. }
      exists p, w'. split; [exact H|]. split; [exact Hn|exact Hcl].
Qed.

Lemma unlink_all_ok (fns : list string) (w : world) :
  NoDup (map (Path.join fdir) fns) -> (forall fn, fn ∈ fns -> is_Some (files w !! Path.join fdir fn)) ->
  exists w', Body.unlink_all fdir fns w = (inr tt, w')
    /\ (forall p, files w' !! p = if decide (p ∈ map (Path.join fdir) fns) then None else files w !! p)
    /\ wlog w' = wlog w /\ notes w' = notes w /\ calls w' = calls w.
Proof.
  revert w; induction fns as [|fn rest IH]; intros w Hd Hex.
  - exists w. split; [reflexivity|]. split; [|tauto]. intros p.
    rewrite decide_False; [reflexivity|]. apply not_elem_of_nil.
  - cbn [map] in Hd. rewrite NoDup_cons in Hd. destruct Hd as [Hnin Hd].
    destruct (Hex fn (list_elem_of_here _ _)) as [c Hc].
    cbn [Body.unlink_all Hook.DRYRUN negb].
    assert (Hs : fs_unlink (Path.join fdir fn) w
                 = (inr tt, set_files (delete (Path.join fdir fn) (files w)) w))
      by (unfold fs_unlink; now rewrite Hc).
    erewrite bind_inr by exact Hs.
    destruct (IH (set_files (delete (Path.join fdir fn) (files w)) w)) as (w' & H & Hf & Hl & Hn & Hcl).
    { exact Hd. }
    { intros f Hf. cbn. rewrite lookup_delete_ne.
      - apply Hex. now apply list_elem_of_further.
      - intros He. apply Hnin. rewrite He. apply list_elem_of_In, in_map. now apply list_elem_of_In. }
    exists w'. split; [exact H|]. split; [|exact (conj Hl (conj Hn Hcl))].
    intros p. rewrite Hf. cbn.
    destruct (decide (p ∈ map (Path.join fdir) rest)) as [H1|H1].
    + rewrite decide_True; [reflexivity|]. now apply list_elem_of_further.
    + rewrite lookup_delete. case_decide as H2.
      * rewrite decide_True; [reflexivity|]. subst. apply list_elem_of_here.
      * rewrite decide_False; [reflexivity|]. intros H3.
        apply elem_of_cons in H3 as [H3|H3]; [congruence|contradiction].
Qed.

End Upload2.

Section Upload3.
Local Open Scope Z_scope.
Local Open Scope nat_scope.
Local Open Scope string_scope.

Lemma upload_prefix (E : env) (yi fdir : string) (ups : list string) (w : world) :
  t_rc (tool E (Body.rclone_cmd yi fdir)) = 0%Z ->
  Body.upload E yi fdir ups w
  = (let* _ := Body.unlink_all fdir ups in notify (mkNote "Upped to GDrive" None yi))
      (mkWorld (<[Path.join fdir "rclone.lst" := String.concat (String Hook.nl "") ups ++ String Hook.nl ""]> (files w))
               (wlog w ++ [("[" ++ yi ++ "] " ++ String.concat " " (map Body.py_bytes_repr (Body.rclone_cmd yi fdir)))%string;
                           ("[" ++ yi ++ "] " ++ "<t1 - t0> + <t2 - t1> sec")%string])%list
               (notes w) (calls w ++ [Body.rclone_cmd yi fdir])%list).
Proof.
  intros Hrc. unfold Body.upload.
  erewrite bind_inr by reflexivity.
  erewrite bind_inr by reflexivity.
  cbn [Hook.DRYRUN negb].
  erewrite bind_inr by reflexivity.
  rewrite errchk_fst, Hrc. cbn [Z.eqb negb].
  erewrite bind_inr by reflexivity.
  cbn. now rewrite <- app_assoc.
Qed.

(** When rclone succeeds and the shipped paths are distinct and present, upload writes rclone.lst, deletes every shipped file, runs rclone once and sends the Upped notification. *)
Theorem upload_success (E : env) (yi fdir : string) (ups : list string) (w : world) :
  t_rc (tool E (Body.rclone_cmd yi fdir)) = 0%Z ->
  NoDup (map (Path.join fdir) ups) ->
  (forall fn, fn ∈ ups -> is_Some (files w !! Path.join fdir fn)) ->
  exists w', Body.upload E yi fdir ups w = (inr tt, w')
    /\ (forall p, files w' !! p
                  = if decide (p ∈ map (Path.join fdir) ups) then None
                    else if decide (p = Path.join fdir "rclone.lst")
                    then Some (String.concat (String Hook.nl "") ups ++ String Hook.nl "")
                    else files w !! p)
    /\ calls w' = (calls w ++ [Body.rclone_cmd yi fdir])%list
    /\ notes w' = (notes w ++ [mkNote "Upped to GDrive" None yi])%list.
Proof.
  intros Hrc Hd Hex. rewrite (upload_prefix E yi fdir ups w Hrc).
  set (w1 := mkWorld _ _ _ _).
  destruct (unlink_all_ok fdir ups w1 Hd) as (w2 & H & Hf & Hl & Hn & Hc).
  { intros fn Hfn. cbn. rewrite lookup_insert.
    case_decide; [eexists; reflexivity|]. now apply Hex. }
  erewrite bind_inr by exact H. eexists. split; [reflexivity|].
  cbn. rewrite Hn, Hc. split; [|split; reflexivity].
  intros p. rewrite Hf. cbn. destruct (decide (p ∈ _)); [reflexivity|].
  rewrite lookup_insert. case_decide as Hp; [subst; now rewrite decide_True|].
  now rewrite decide_False.
Qed.

(** When rclone succeeds but two shipped names coincide, the second unlink raises FileNotFoundError after the rclone call, and no notification is sent. *)
Theorem upload_duplicate_crash (E : env) (yi fdir : string) (ups : list string) (w : world) :
  t_rc (tool E (Body.rclone_cmd yi fdir)) = 0%Z ->
  ~ NoDup (map (Path.join fdir) ups) ->
  exists p w', Body.upload E yi fdir ups w = (inl (Crashed ("FileNotFoundError: " ++ p)), w')
    /\ calls w' = (calls w ++ [Body.rclone_cmd yi fdir])%list
    /\ notes w' = notes w.
Proof.
  intros Hrc Hd. rewrite (upload_prefix E yi fdir ups w Hrc).
  set (w1 := mkWorld _ _ _ _).
  destruct (unlink_all_dup fdir ups w1 Hd) as (p & w2 & H & Hn & Hc).
  erewrite bind_inl by exact H. exists p, w2. split; [reflexivity|].
  rewrite Hn, Hc. split; reflexivity.
Qed.

End Upload3.

Section B64Facts.
Local Open Scope Z_scope.
Local Open Scope string_scope.

Lemma be_bytes_length (n : nat) (x : Z) : length (Sha1.be_bytes n x) = n.
Proof. unfold Sha1.be_bytes. now rewrite length_map, length_seq. Qed.

Lemma be_bytes_range (n : nat) (x : Z) : Forall (fun b => 0 <= b < 256) (Sha1.be_bytes n x).
Proof.
  unfold Sha1.be_bytes. apply List.Forall_forall. intros b Hb. apply in_map_iff in Hb as [i [<- _]].
  change 255 with (Z.ones 8). rewrite Z.land_ones by lia.
  apply Z.mod_pos_bound. reflexivity.
Qed.

Lemma digest_shape (m : list Z) :
  length (Sha1.digest m) = 20%nat /\ Forall (fun b => 0 <= b < 256) (Sha1.digest m).
Proof.
  unfold Sha1.digest. destruct (fold_left _ _ _) as [[[[h0 h1] h2] h3] h4].
  cbn [flat_map]. rewrite !app_nil_r. split.
  - rewrite !length_app, !be_bytes_length. reflexivity.
  - repeat apply Forall_app_2; apply be_bytes_range.
Qed.

Lemma get_in (k : nat) (s : string) (c : ascii) :
  String.get k s = Some c -> In c (list_ascii_of_string s).
Proof.
  revert k; induction s as [|d s IH]; intros [|k] H; cbn in H; try discriminate.
  - injection H as <-. now left.
  - right. exact (IH k H).
Qed.

Lemma get_some (k : nat) (s : string) :
  (k < String.length s)%nat -> exists c, String.get k s = Some c.
Proof.
  revert k; induction s as [|d s IH]; intros [|k] H; cbn in H |- *; try lia.
  - eexists; reflexivity.
  - apply IH. lia.
Qed.

Lemma sym_b64 (x : Z) : 0 <= x < 64 -> b64_char (B64.sym x) = true.
Proof.
  intros Hx. unfold B64.sym. destruct (get_some (Z.to_nat x) B64.alphabet) as [c Hc].
  { cbn. lia. }
  rewrite Hc. unfold b64_char. apply existsb_exists. exists c.
  split; [exact (get_in _ _ _ Hc)|]. apply Ascii.eqb_refl.
Qed.

Lemma sym_not_cr (x : Z) : B64.sym x <> Hook.cr.
Proof.
  unfold B64.sym. destruct (String.get (Z.to_nat x) B64.alphabet) as [c|] eqn:Hc; [|discriminate].
  apply get_in in Hc. intros ->. cbn in Hc. intuition discriminate.
Qed.

Lemma encode_no_cr : forall l, Py.all_chars (fun c => negb (Py.ceq c Hook.cr)) (B64.encode l) = true.
Proof.
  assert (Hs : forall x, negb (Py.ceq (B64.sym x) Hook.cr) = true).
  { intros x. pose proof (sym_not_cr x). unfold Py.ceq.
    destruct (Ascii.eqb_spec (B64.sym x) Hook.cr); [contradiction|reflexivity]. }
  unfold Py.all_chars.
  fix IH 1. intros [|a [|b [|c r]]]; cbn [B64.encode list_ascii_of_string forallb];
    rewrite ?Hs; try reflexivity.
  exact (IH r).
Qed.

Lemma encode_app3 : forall l1 l2, (length l1 mod 3 = 0)%nat ->
  B64.encode (l1 ++ l2) = (B64.encode l1 ++ B64.encode l2)%string.
Proof.
  fix IH 1. intros [|a [|b [|c r]]] l2 Hl; [reflexivity|cbn in Hl; discriminate|cbn in Hl; discriminate|].
  cbn [app B64.encode]. rewrite IH; [reflexivity|].
  change (length (a :: b :: c :: r)) with (3 + length r)%nat in Hl. rewrite (Nat.add_comm 3), <- (Nat.mul_1_l 3) in Hl.
  now rewrite Nat.Div0.mod_add in Hl.
Qed.

Lemma byte_syms (a b c : Z) : 0 <= a < 256 -> 0 <= b < 256 -> 0 <= c < 256 ->
  0 <= (a * 65536 + b * 256 + c) / 262144 < 64.
Proof. intros. split; [apply Z.div_pos; lia|]. apply Z.div_lt_upper_bound; lia. Qed.

Lemma encode_full : forall l, (length l mod 3 = 0)%nat -> Forall (fun b => 0 <= b < 256) l ->
  length (list_ascii_of_string (B64.encode l)) = (4 * (length l / 3))%nat
  /\ forallb b64_char (list_ascii_of_string (B64.encode l)) = true.
Proof.
  fix IH 1. intros [|a [|b [|c r]]] Hl Hf; [split; reflexivity|cbn in Hl; discriminate|cbn in Hl; discriminate|].
  apply Forall_cons in Hf as [Ha Hf]. apply Forall_cons in Hf as [Hb Hf].
  apply Forall_cons in Hf as [Hc Hf].
  assert (Hr : (length r mod 3 = 0)%nat).
  { change (length (a :: b :: c :: r)) with (3 + length r)%nat in Hl. rewrite (Nat.add_comm 3), <- (Nat.mul_1_l 3) in Hl.
    now rewrite Nat.Div0.mod_add in Hl. }
  destruct (IH r Hr Hf) as [H1 H2].
  cbn [B64.encode list_ascii_of_string length forallb]. rewrite H1, H2.
  rewrite !sym_b64; [split; [|reflexivity]| | | |].
  - replace (S (S (S (length r)))) with (length r + 1 * 3)%nat by lia.
    rewrite Nat.div_add by lia. lia.
  - apply Z.mod_pos_bound; lia.
  - apply Z.mod_pos_bound; lia.
  - apply Z.mod_pos_bound; lia.
  - apply byte_syms; assumption.
Qed.

Lemma uid_tail (m : list Z) :
  String.length (str_take 24 (B64.encode (Sha1.digest m))) = 24%nat
  /\ Py.all_chars b64_char (str_take 24 (B64.encode (Sha1.digest m))) = true.
Proof.
  destruct (digest_shape m) as [Hl Hf].
  rewrite <- (firstn_skipn 18 (Sha1.digest m)).
  rewrite encode_app3 by (rewrite firstn_length_le by lia; reflexivity).
  destruct (encode_full (firstn 18 (Sha1.digest m))) as [H1 H2].
  { rewrite firstn_length_le by lia. reflexivity. }
  { rewrite <- (firstn_skipn 18 (Sha1.digest m)) in Hf. apply Forall_app in Hf. apply Hf. }
  rewrite firstn_length_le in H1 by lia. cbn in H1.
  unfold Py.all_chars, str_take. rewrite length_list_ascii, substring_0_firstn.
  rewrite list_ascii_of_string_app, firstn_app, H1. replace (24 - 24)%nat with 0%nat by lia.
  cbn [firstn]. rewrite app_nil_r, firstn_all2 by lia.
  split; [exact H1|exact H2].
Qed.

End B64Facts.

Section Gather.
Local Open Scope Z_scope.
Local Open Scope string_scope.
Variable yi : string.



End Gather.

Section TextRead.
Local Open Scope Z_scope.
Local Open Scope string_scope.

Lemma univ_nl_out (n : nat) : forall s, (String.length s <= n)%nat ->
  Py.all_chars (fun c => negb (Py.ceq c Hook.cr)) (Hook.univ_nl s) = true.
Proof.
  unfold Py.all_chars. induction n as [|n IH]; intros [|c s] Hs; cbn in Hs; try lia; try reflexivity.
  cbn [Hook.univ_nl]. destruct (Py.ceq c Hook.cr) eqn:Hc.
  - destruct s as [|d s']; [reflexivity|].
    destruct (Py.ceq d Hook.nl); cbn [list_ascii_of_string forallb];
      rewrite IH by (cbn in Hs |- *; lia); reflexivity.
  - cbn [list_ascii_of_string forallb]. rewrite Hc, IH by lia. reflexivity.
Qed.

Lemma univ_nl_fix (s : string) :
  Py.all_chars (fun c => negb (Py.ceq c Hook.cr)) s = true -> Hook.univ_nl s = s.
Proof.
  unfold Py.all_chars. induction s as [|c s IH]; intros H; [reflexivity|].
  cbn [list_ascii_of_string forallb] in H. apply andb_prop in H as [H1 H2].
  cbn [Hook.univ_nl]. destruct (Py.ceq c Hook.cr); [discriminate|]. now rewrite IH.
Qed.

(** Text read through universal newlines contains no carriage return, and reading it again changes nothing. *)
Theorem univ_nl_clean (s : string) :
  Py.all_chars (fun c => negb (Py.ceq c Hook.cr)) (Hook.univ_nl s) = true
  /\ Hook.univ_nl (Hook.univ_nl s) = Hook.univ_nl s.
Proof.
  pose proof (univ_nl_out (String.length s) s (le_n _)) as H.
  split; [exact H|]. exact (univ_nl_fix _ H).
Qed.

End TextRead.

Section Uploader.
Local Open Scope Z_scope.
Local Open Scope string_scope.

Lemma derive_uid_shape (ip salt u : string) :
  Hook.derive_uid ip salt = Some u ->
  exists h, u = "ip:" ++ h /\ String.length h = 24%nat /\ Py.all_chars b64_char h = true.
Proof.
  unfold Hook.derive_uid. destruct (encode_ascii (ip ++ salt)) as [b|]; [|discriminate].
  intros [= <-]. eexists; split; [reflexivity|]. apply uid_tail.
Qed.

(** A successful uploader step either leaves md and the world untouched
    (no or empty up_ip), or found an existing, non-empty guestbook.db3
    and set md[uploader] to the guestbook message for the ip or, when the
    select finds no row, to ip: followed by 24 base64 characters. *)
Theorem identity_outcome (E : env) (md md' : gmap string string) (w w' : world) :
  Hook.identity E md w = (inr md', w') ->
  (match md !! "up_ip" with None => True | Some ip => ip = "" end /\ md' = md /\ w' = w)
  \/ (exists ip db u, md !! "up_ip" = Some ip /\ ip <> "" /\ files w !! "guestbook.db3" = Some db
      /\ db <> "" /\ md' = <["uploader" := u]> md
      /\ (gb_select E db ip = inr (Some u)
          \/ gb_select E db ip = inr None /\ exists h, u = "ip:" ++ h /\ String.length h = 24%nat
                                           /\ Py.all_chars b64_char h = true)).
Proof.
  intros H. unfold Hook.identity in H.
  destruct (md !! "up_ip") as [ip|] eqn:Hip; [|left; injection H as <- <-; auto].
  destruct (Py.seq ip "") eqn:Hs.
  { left. injection H as <- <-. apply String.eqb_eq in Hs. auto. }
  right. assert (Hne : ip <> "") by (intros ->; discriminate).
  erewrite bind_inr in H by reflexivity.
  destruct (files w !! "guestbook.db3") as [db|] eqn:Hdb.
  2:{ rewrite bool_decide_eq_false_2 in H by (intros [? Hx]; discriminate Hx).
      erewrite bind_inr in H by reflexivity.
      erewrite bind_inr in H by (unfold fs_read; cbn; rewrite lookup_insert_eq; reflexivity).
      erewrite bind_inl in H by reflexivity. discriminate. }
  rewrite bool_decide_eq_true_2 in H by (eexists; reflexivity).
  erewrite bind_inr in H by reflexivity.
  erewrite bind_inr in H by (unfold fs_read; rewrite Hdb; reflexivity).
  destruct (Py.seq db "") eqn:Hd; [erewrite bind_inl in H by reflexivity; discriminate|].
  assert (Hdn : db <> "") by (intros ->; discriminate).
  exists ip, db.
  destruct (gb_select E db ip) as [e|[u|]] eqn:Hg.
  { erewrite bind_inl in H by reflexivity. discriminate. }
  { erewrite bind_inr in H by reflexivity. erewrite bind_inr in H by reflexivity. injection H as <- <-.
    exists u. repeat split; auto. }
  erewrite bind_inr in H by reflexivity. cbv beta iota in H.
  rewrite bind_assoc in H. erewrite bind_inr in H by reflexivity. rewrite bind_assoc in H.
  destruct (bool_decide (is_Some (files w !! "salt"))) eqn:Hsl.
  - apply bool_decide_eq_true_1 in Hsl. destruct Hsl as [s Hsl].
    erewrite bind_inr in H by (unfold bind, fs_read; rewrite Hsl; reflexivity).
    destruct (Hook.derive_uid ip (Hook.univ_nl s)) as [u|] eqn:Hu;
      [|erewrite bind_inl in H by reflexivity; discriminate].
    erewrite bind_inr in H by reflexivity. injection H as <- <-.
    exists u. repeat split; auto. right. split; [reflexivity|]. exact (derive_uid_shape _ _ _ Hu).
  - erewrite bind_inr in H by reflexivity.
    destruct (Hook.derive_uid ip (Hook.new_salt (urandom32 E))) as [u|] eqn:Hu;
      [|erewrite bind_inl in H by reflexivity; discriminate].
    erewrite bind_inr in H by reflexivity. injection H as <- <-.
    exists u. repeat split; auto. right. split; [reflexivity|]. exact (derive_uid_shape _ _ _ Hu).
Qed.

Lemma forallb_firstn (f : ascii -> bool) (n : nat) (l : list ascii) :
  forallb f l = true -> forallb f (firstn n l) = true.
Proof.
  revert n; induction l as [|c l IH]; intros [|n] H; cbn in *; try reflexivity.
  apply andb_prop in H as [H1 H2]. now rewrite H1, IH.
Qed.

Lemma new_salt_no_cr (rnd : list Z) : Hook.univ_nl (Hook.new_salt rnd) = Hook.new_salt rnd.
Proof.
  apply univ_nl_fix. unfold Hook.new_salt, str_take, Py.all_chars.
  rewrite substring_0_firstn. apply forallb_firstn. apply encode_no_cr.
Qed.

(** The salt written by one run is reused: when the guestbook has no row
    for the ip, a second uploader step for the same ip in the resulting
    world yields the same uploader id and changes nothing. *)
Theorem identity_salt_reused (E1 E2 : env) (md md1 md2 : gmap string string) (w w1 : world) (ip db : string) :
  md !! "up_ip" = Some ip -> ip <> "" -> files w !! "guestbook.db3" = Some db ->
  gb_select E1 db ip = inr None -> gb_select E2 db ip = inr None ->
  md2 !! "up_ip" = Some ip ->
  Hook.identity E1 md w = (inr md1, w1) ->
  exists u, md1 = <["uploader" := u]> md
            /\ Hook.identity E2 md2 w1 = (inr (<["uploader" := u]> md2), w1).
Proof.
  intros Hip Hne Hdb Hg1 Hg2 Hip2 H. unfold Hook.identity in H |- *. rewrite Hip in H. rewrite Hip2.
  destruct (Py.seq ip "") eqn:Hs; [apply String.eqb_eq in Hs; contradiction|].
  erewrite bind_inr in H by reflexivity. erewrite bind_inr by reflexivity.
  rewrite Hdb in H. rewrite bool_decide_eq_true_2 in H by (eexists; reflexivity).
  erewrite bind_inr in H by reflexivity.
  erewrite bind_inr in H by (unfold fs_read; rewrite Hdb; reflexivity).
  destruct (Py.seq db "") eqn:Hd; [erewrite bind_inl in H by reflexivity; discriminate|].
  rewrite Hg1 in H. erewrite bind_inr in H by reflexivity. cbv beta iota in H.
  rewrite bind_assoc in H. erewrite bind_inr in H by reflexivity. rewrite bind_assoc in H.
  destruct (bool_decide (is_Some (files w !! "salt"))) eqn:Hsl.
  - apply bool_decide_eq_true_1 in Hsl. destruct Hsl as [s Hsl].
    erewrite bind_inr in H by (unfold bind, fs_read; rewrite Hsl; reflexivity).
    destruct (Hook.derive_uid ip (Hook.univ_nl s)) as [u|] eqn:Hu;
      [|erewrite bind_inl in H by reflexivity; discriminate].
    erewrite bind_inr in H by reflexivity. injection H as <- <-.
    exists u. split; [reflexivity|].
    rewrite Hdb, bool_decide_eq_true_2 by (eexists; reflexivity).
    erewrite bind_inr by reflexivity.
    erewrite bind_inr by (unfold fs_read; rewrite Hdb; reflexivity).
    rewrite Hd, Hg2. erewrite bind_inr by reflexivity. cbv beta iota.
    rewrite bind_assoc. erewrite bind_inr by reflexivity. rewrite bind_assoc.
    rewrite (bool_decide_eq_true_2 (is_Some (files w !! "salt"))) by (exists s; exact Hsl).
    erewrite bind_inr by (unfold bind, fs_read; rewrite Hsl; reflexivity).
    rewrite Hu. reflexivity.
  - erewrite bind_inr in H by reflexivity.
    destruct (Hook.derive_uid ip (Hook.new_salt (urandom32 E1))) as [u|] eqn:Hu;
      [|erewrite bind_inl in H by reflexivity; discriminate].
    erewrite bind_inr in H by reflexivity. injection H as <- <-.
    exists u. split; [reflexivity|].
    assert (Hdb' : files (set_files (<["salt" := Hook.new_salt (urandom32 E1)]> (files w)) w) !! "guestbook.db3" = Some db)
      by (cbn [files set_files]; rewrite lookup_insert_ne by discriminate; exact Hdb).
    rewrite Hdb', bool_decide_eq_true_2 by (eexists; reflexivity).
    erewrite bind_inr by reflexivity.
    erewrite bind_inr by (unfold fs_read; rewrite Hdb'; reflexivity).
    rewrite Hd, Hg2. erewrite bind_inr by reflexivity. cbv beta iota.
    rewrite bind_assoc. erewrite bind_inr by reflexivity. rewrite bind_assoc.
    cbn [files set_files]. rewrite lookup_insert_eq. rewrite bool_decide_eq_true_2 by (eexists; reflexivity).
    erewrite bind_inr.
    2:{ unfold bind, fs_read. cbn [files set_files]. rewrite lookup_insert_eq. reflexivity. }
    rewrite new_salt_no_cr, Hu. reflexivity.
Qed.

End Uploader.

Section Dates.
Local Open Scope Z_scope.
Local Open Scope string_scope.

Lemma first_some_some {A B} (f : A -> option B) (l : list A) (y : B) :
  EsDoc.first_some f l = Some y -> exists x, In x l /\ f x = Some y.
Proof.
  induction l as [|x l IH]; cbn; [discriminate|].
  destruct (f x) as [z|] eqn:Hf.
  - intros [= <-]. exists x. auto.
  - intros H. destruct (IH H) as (x' & Hi & Hx). exists x'. auto.
Qed.

Lemma take2_some (l m r : list ascii) :
  EsDoc.take2 l = Some (m, r) -> exists a b, l = a :: b :: r /\ m = [a; b] /\ EsDoc.dot a = true /\ EsDoc.dot b = true.
Proof.
  destruct l as [|a [|b r']]; cbn; try discriminate.
  destruct (EsDoc.dot a) eqn:Ha, (EsDoc.dot b) eqn:Hb; cbn; try discriminate.
  intros [= <- <-]. exists a, b. auto.
Qed.

Lemma date_match_shape (l y m d : list ascii) :
  EsDoc.date_match l = Some (y, m, d) ->
  exists y1 y2 y3 y4 a b c e, y = [y1; y2; y3; y4] /\ m = [a; b] /\ d = [c; e]
    /\ forallb EsDoc.dot [y1; y2; y3; y4; a; b; c; e] = true.
Proof.
  unfold EsDoc.date_match. destruct l as [|y1 [|y2 [|y3 [|y4 r]]]]; try discriminate.
  destruct (forallb EsDoc.dot [y1; y2; y3; y4]) eqn:Hy; [|discriminate].
  intros H. apply first_some_some in H as (r1 & _ & H).
  destruct (EsDoc.take2 r1) as [[m' r2]|] eqn:Ht; [|discriminate].
  apply take2_some in Ht as (a & b & _ & -> & Ha & Hb).
  apply first_some_some in H as (r3 & _ & H).
  destruct (EsDoc.take2 r3) as [[d' r4]|] eqn:Ht; [|discriminate].
  apply take2_some in Ht as (c & e & _ & -> & Hc & He).
  injection H as <- <- <-.
  exists y1, y2, y3, y4, a, b, c, e. repeat split.
  cbn [forallb] in Hy |- *. rewrite Ha, Hb, Hc, He. now rewrite !andb_true_r in Hy |- *.
Qed.

(** Normalising an upload date twice gives the same result as normalising it once. *)
Theorem norm_upload_date_idem (s : string) :
  EsDoc.norm_upload_date (EsDoc.norm_upload_date s) = EsDoc.norm_upload_date s.
Proof.
  unfold EsDoc.norm_upload_date at 2 3.
  destruct (EsDoc.date_match (list_ascii_of_string s)) as [[[y m] d]|] eqn:Hm; [|unfold EsDoc.norm_upload_date; now rewrite Hm].
  apply date_match_shape in Hm as (y1 & y2 & y3 & y4 & a & b & c & e & -> & -> & -> & Hd).
  cbn [forallb] in Hd. rewrite !andb_true_iff in Hd.
  destruct Hd as (H1 & H2 & H3 & H4 & Ha & Hb & Hc & He & _).
  unfold EsDoc.norm_upload_date. cbn -[EsDoc.dot].
  do 3 (rewrite ?H1, ?H2, ?H3, ?H4, ?Ha, ?Hb, ?Hc, ?He; cbn -[EsDoc.dot]). reflexivity.
Qed.

(** A normalised upload date is either the input unchanged or a 10-character string with dashes at positions 4 and 7. *)
Theorem norm_upload_date_shape (s : string) :
  EsDoc.norm_upload_date s = s
  \/ (String.length (EsDoc.norm_upload_date s) = 10%nat
      /\ String.get 4 (EsDoc.norm_upload_date s) = Some "-"%char
      /\ String.get 7 (EsDoc.norm_upload_date s) = Some "-"%char).
Proof.
  unfold EsDoc.norm_upload_date.
  destruct (EsDoc.date_match (list_ascii_of_string s)) as [[[y m] d]|] eqn:Hm; [|now left].
  apply date_match_shape in Hm as (y1 & y2 & y3 & y4 & a & b & c & e & -> & -> & -> & _).
  right. repeat split.
Qed.

End Dates.

Section Rerun.
Local Open Scope Z_scope.
Local Open Scope string_scope.






End Rerun.

Section Thumbs.
Local Open Scope Z_scope.
Local Open Scope string_scope.
Variable E : env.
Variables yi vid : string.

Lemma run_out_frame (cmd : list string) (p : string) (w : world) :
  exists r w', run E cmd (Some p) w = (inr r, w')
    /\ (forall q, q <> p -> files w' !! q = files w !! q)
    /\ notes w' = notes w /\ calls w' = (calls w ++ [cmd])%list.
Proof.
  do 2 eexists. split; [reflexivity|]. cbn [files notes calls]. split; [|split; reflexivity].
  intros q Hq. destruct (t_out (tool E cmd)); [|reflexivity]. now apply lookup_insert_ne.
Qed.

Lemma thumbex_go_spec (exts ups : list string) (w : world) :
  exists b r w', Body.thumbex_go E yi vid exts ups w = (inr (b, r), w')
    /\ (b = false -> r = ups)
    /\ (b = true -> exists ext, In ext exts /\ r = (ups ++ [(vid ++ ext)%string])%list)
    /\ (forall p, ~ In p (map (String.append vid) exts) -> files w' !! p = files w !! p)
    /\ notes w' = notes w
    /\ exists cs, calls w' = (calls w ++ cs)%list /\ (length cs <= length exts)%nat.
Proof.
  revert w. induction exts as [|ext exts IH]; intros w.
  - exists false, ups, w. repeat split; try discriminate. exists []. rewrite app_nil_r. auto.
  - cbn [Body.thumbex_go]. erewrite bind_inr by reflexivity.
    set (w1 := mkWorld (files w) (wlog w ++ _) (notes w) (calls w)).
    destruct (run_out_frame (Body.thumbex_cmd vid (vid ++ ext)) (vid ++ ext) w1) as (r & w2 & Hr & F2 & N2 & C2).
    erewrite bind_inr by exact Hr.
    destruct (Z.eqb (fst r) 0) eqn:Hz.
    + erewrite bind_inr by reflexivity.
      eexists true, _, _. split; [reflexivity|]. split; [discriminate|]. split.
      { intros _. exists ext. split; [now left|reflexivity]. }
      split; [|split].
      * intros p Hp. cbn [files]. rewrite F2; [reflexivity|]. intros ->. apply Hp. now left.
      * cbn [notes]. exact N2.
      * exists [Body.thumbex_cmd vid (vid ++ ext)]. cbn [calls]. rewrite C2. split; [reflexivity|cbn; lia].
    + erewrite bind_inr by reflexivity.
      set (w3 := mkWorld (files w2) (wlog w2 ++ _) (notes w2) (calls w2)).
      destruct (IH w3) as (b & r' & w' & H & HF & HT & F & N & cs & C & L).
      exists b, r', w'. split; [exact H|]. split; [exact HF|]. split.
      { intros Hb. destruct (HT Hb) as (e & He & ->). exists e. split; [now right|reflexivity]. }
      split; [|split].
      * intros p Hp. rewrite F by (intros Hi; apply Hp; now right). cbn [files].
        apply F2. intros ->. apply Hp. now left.
      * rewrite N. cbn [notes]. exact N2.
      * exists (Body.thumbex_cmd vid (vid ++ ext) :: cs). rewrite C. unfold w3. cbn [calls]. rewrite C2.
        split; [now rewrite <- app_assoc|cbn; lia].
Qed.

(** The thumbnail step adds at most one file name to ups, does nothing when a thumbnail is already listed, writes only the three candidate thumbnail paths and runs at most four tools. *)
Theorem thumbs_spec (ups : list string) (w : world) :
  exists r w', Body.thumbs E yi vid ups w = (inr r, w')
    /\ (r = ups \/ exists ext, In ext [".webp"; ".png"; ".jpg"] /\ r = (ups ++ [(vid ++ ext)%string])%list)
    /\ (existsb Body.is_thumb ups = true -> r = ups /\ w' = w)
    /\ (forall p, ~ In p [vid ++ ".webp"; vid ++ ".png"; vid ++ ".jpg"] -> files w' !! p = files w !! p)
    /\ notes w' = notes w
    /\ exists cs, calls w' = (calls w ++ cs)%list /\ (length cs <= 4)%nat.
Proof.
  unfold Body.thumbs. destruct (existsb Body.is_thumb ups) eqn:Ht.
  { erewrite bind_inr by reflexivity. cbn [fst snd].
    exists ups, w. split; [reflexivity|]. split; [now left|]. split; [auto|]. split; [auto|].
    split; [reflexivity|]. exists []. rewrite app_nil_r. split; [reflexivity|cbn; lia]. }
  destruct (thumbex_go_spec [".webp"; ".png"; ".jpg"] ups w) as (b & r & w1 & H1 & HF & HT & F1 & N1 & cs & C1 & L1).
  erewrite bind_inr by exact H1. cbn [fst snd].
  destruct b.
  { exists r, w1. split; [reflexivity|]. split; [right; exact (HT eq_refl)|].
    split; [discriminate|]. split; [exact F1|]. split; [exact N1|]. exists cs. split; [exact C1|cbn in L1; lia]. }
  specialize (HF eq_refl). subst r.
  erewrite bind_inr by reflexivity.
  set (w2 := mkWorld (files w1) (wlog w1 ++ _) (notes w1) (calls w1)).
  destruct (run_out_frame (Body.thumbgen_cmd vid (vid ++ ".jpg")) (vid ++ ".jpg") w2) as (g & w3 & Hg & F3 & N3 & C3).
  erewrite bind_inr by exact Hg.
  assert (HF3 : forall p, ~ In p [vid ++ ".webp"; vid ++ ".png"; vid ++ ".jpg"] -> files w3 !! p = files w !! p).
  { intros p Hp. rewrite F3 by (intros ->; apply Hp; right; right; now left). cbn [files]. now apply F1. }
  assert (HC3 : exists cs, calls w3 = (calls w ++ cs)%list /\ (length cs <= 4)%nat).
  { exists (cs ++ [Body.thumbgen_cmd vid (vid ++ ".jpg")%string])%list. rewrite C3. unfold w2. cbn [calls]. rewrite C1.
    split; [now rewrite app_assoc|]. rewrite length_app. cbn in L1 |- *. lia. }
  destruct (Z.eqb (fst g) 0); erewrite bind_inr by reflexivity; (eexists _, _; split; [reflexivity|]).
  - split; [right; exists ".jpg"; split; [right; right; now left|reflexivity]|].
    split; [discriminate|]. split; [exact HF3|]. split; [cbn [notes]; now rewrite N3|exact HC3].
  - split; [now left|]. split; [discriminate|]. split; [exact HF3|]. split; [cbn [notes]; now rewrite N3|exact HC3].
Qed.

End Thumbs.

Section Classify.
Local Open Scope Z_scope.
Local Open Scope string_scope.

Lemma lower_app (a b : string) : Py.lower (a ++ b) = Py.lower a ++ Py.lower b.
Proof. induction a as [|c a IH]; cbn; [reflexivity|now rewrite IH]. Qed.

Lemma length_sapp (a b : string) : String.length (a ++ b) = (String.length a + String.length b)%nat.
Proof. induction a as [|c a IH]; cbn; [reflexivity|now rewrite IH]. Qed.

Lemma substring_app_r (a b : string) (n : nat) :
  String.substring (String.length a) n (a ++ b) = String.substring 0 n b.
Proof. induction a as [|c a IH]; cbn; [reflexivity|exact IH]. Qed.

Lemma substring_all (b : string) : String.substring 0 (String.length b) b = b.
Proof. induction b as [|c b IH]; cbn; [reflexivity|now rewrite IH]. Qed.

Lemma endswith_app (a b : string) : Py.endswith (a ++ b) b = true.
Proof.
  unfold Py.endswith. rewrite length_sapp.
  replace (String.length a + String.length b - String.length b)%nat with (String.length a) by lia.
  rewrite substring_app_r, substring_all. apply andb_true_intro. split.
  - apply Nat.leb_le. lia.
  - apply String.eqb_refl.
Qed.

Lemma classify_ext_lower (mi : mediainfo) (x : string) :
  fst (Body.classify mi) = Some x -> Py.lower ("." ++ x) = "." ++ x.
Proof.
  unfold Body.classify.
  destruct (Py.seq (Py.lower (mi_format mi)) "matroska"); [intros [= <-]; reflexivity|].
  destruct (Py.seq (Py.lower (mi_format mi)) "webm"); [intros [= <-]; reflexivity|].
  destruct (Py.seq (Py.lower (mi_format mi)) "mpeg-4");
    [destruct (mi_has_video mi); intros [= <-]; reflexivity|].
  destruct (Py.seq (Py.lower (mi_format mi)) "flash video"); [intros [= <-]; reflexivity|].
  discriminate.
Qed.

(** classify_rename moves the video to a name whose lowercased extension matches the detected format, and changes no other file. *)
Theorem classify_rename_spec (E : env) (yi vid fp : string) (need : bool) (w w' : world) :
  Body.classify_rename E yi vid w = (inr (fp, need), w') ->
  need = snd (Body.classify (probe E vid))
  /\ (forall x, fst (Body.classify (probe E vid)) = Some x -> Py.endswith (Py.lower fp) ("." ++ x) = true)
  /\ files w' !! fp = files w !! vid
  /\ (fp <> vid -> files w' !! vid = None)
  /\ (forall p, p <> fp -> p <> vid -> files w' !! p = files w !! p)
  /\ calls w' = calls w /\ notes w' = notes w.
Proof.
  intros H. unfold Body.classify_rename in H. erewrite bind_inr in H by reflexivity.
  destruct (Body.classify (probe E vid)) as [[x|] nd] eqn:Hc; cbn [fst snd].
  2:{ injection H as <- <- <-. split; [reflexivity|]. split; [intros ? [=]|].
       split; [reflexivity|]. split; [intros []; reflexivity|]. split; [auto|split; reflexivity]. }
  pose proof (classify_ext_lower (probe E vid) x) as Hx. rewrite Hc in Hx. specialize (Hx eq_refl).
  destruct (Py.endswith (Py.lower vid) ("." ++ x)) eqn:He; cbn [negb] in H.
  { injection H as <- <- <-. split; [reflexivity|]. split; [intros ? [= <-]; exact He|].
    split; [reflexivity|]. split; [intros []; reflexivity|]. split; [auto|split; reflexivity]. }
  set (fn2 := Py.rsplit1_head vid "." ++ "." ++ x) in H.
  assert (Hend : Py.endswith (Py.lower fn2) ("." ++ x) = true).
  { unfold fn2. rewrite lower_app, Hx. apply endswith_app. }
  unfold bind at 1, fs_rename in H. cbn [files] in H.
  destruct (files w !! vid) as [c|] eqn:Hv; [|cbv beta iota in H; discriminate].
  destruct (Py.seq vid fn2) eqn:Hs.
  - apply String.eqb_eq in Hs. erewrite bind_inr in H by reflexivity. injection H as <- <- <-.
    split; [reflexivity|]. split; [intros ? [= <-]; exact Hend|].
    cbn [files]. rewrite <- Hs. split; [exact Hv|]. split; [intros []; reflexivity|].
    split; [auto|split; reflexivity].
  - apply String.eqb_neq in Hs. erewrite bind_inr in H by reflexivity. injection H as <- <- <-.
    split; [reflexivity|]. split; [intros ? [= <-]; exact Hend|]. cbn [files set_files calls notes wlog].
    split; [now rewrite lookup_insert_eq|].
    split; [intros _; rewrite lookup_insert_ne by congruence; apply lookup_delete_eq|].
    split; [|split; reflexivity].
    intros p Hp1 Hp2. rewrite lookup_insert_ne by congruence. now apply lookup_delete_ne.
Qed.

Lemma classify_rename_spec_witness :
  Body.classify_rename remux_env "y" "/v/a.mkv" mkv_world
    = (inr ("/v/a.mp4", true), snd (Body.classify_rename remux_env "y" "/v/a.mkv" mkv_world))
  /\ files (snd (Body.classify_rename remux_env "y" "/v/a.mkv" mkv_world)) !! "/v/a.mp4" = Some "data"
  /\ files (snd (Body.classify_rename remux_env "y" "/v/a.mkv" mkv_world)) !! "/v/a.mkv" = None.
Proof.
  assert (H : Body.classify_rename remux_env "y" "/v/a.mkv" mkv_world
    = (inr ("/v/a.mp4", true), snd (Body.classify_rename remux_env "y" "/v/a.mkv" mkv_world)))
    by (vm_compute; reflexivity).
  destruct (classify_rename_spec _ _ _ _ _ _ _ H) as (_ & _ & H1 & H2 & _).
  split; [exact H|]. split; [rewrite H1; reflexivity|]. apply H2. discriminate.
Defined.

End Classify.



Section IJFacts.
Local Open Scope Z_scope.
Local Open Scope string_scope.
Import IJ.

Lemma ij_scan_spec (sts : list ffstream) : forall (p2 : option Z),
  (forall n, fst (ij_scan sts p2) = Some n -> exists st, In st sts /\ st_index st = n /\ has_ij_name st = true)
  /\ (forall n, snd (ij_scan sts p2) = Some n -> p2 = Some n \/ exists st, In st sts /\ st_index st = n /\ tagged_json st).
Proof.
  induction sts as [|st sts IH]; intros p2; cbn [ij_scan].
  { split; [intros n [=]|intros n Hn; now left]. }
  assert (Hlift : forall q, (forall n, fst (ij_scan sts q) = Some n -> exists st', In st' sts /\ st_index st' = n /\ has_ij_name st' = true)
      /\ (forall n, snd (ij_scan sts q) = Some n -> q = Some n \/ exists st', In st' sts /\ st_index st' = n /\ tagged_json st') ->
      (forall n, fst (ij_scan sts q) = Some n -> exists st', In st' (st :: sts) /\ st_index st' = n /\ has_ij_name st' = true)
      /\ (forall n, snd (ij_scan sts q) = Some n -> q = Some n \/ exists st', In st' (st :: sts) /\ st_index st' = n /\ tagged_json st')).
  { intros q [H1 H2]. split.
    - intros n Hn. destruct (H1 n Hn) as (st' & Hi & Hx & Hj). exists st'. split; [now right|auto].
    - intros n Hn. destruct (H2 n Hn) as [->|(st' & Hi & Hx & Hj)]; [now left|right].
      exists st'. split; [now right|auto]. }
  destruct (st_tags st) as [tg|] eqn:Ht; [|apply Hlift, IH].
  destruct (tg !! "filename") as [fn|] eqn:Hf; [|apply Hlift, IH].
  destruct (Py.endswith (Py.lower fn) ".info.json") eqn:He.
  { cbn [fst snd]. split.
    - intros n [= <-]. exists st. split; [now left|split; [reflexivity|]].
      unfold has_ij_name. now rewrite Ht, Hf.
    - intros n Hn. now left. }
  destruct (tg !! "mimetype") as [mt|] eqn:Hm; [|apply Hlift, IH].
  destruct (Py.seq (Py.lower mt) "application/json") eqn:Hj; [|apply Hlift, IH].
  destruct (Hlift _ (IH (Some (st_index st)))) as [H1 H2]. split; [exact H1|].
  intros n Hn. destruct (H2 n Hn) as [[= <-]|Hx]; [|now right].
  right. exists st. split; [now left|split; [reflexivity|]].
  exists tg, fn. split; [exact Ht|split; [exact Hf|]]. right. exists mt. auto.
Qed.

(** The ffprobe stream chosen for the info.json is one whose tags have an info.json filename or a json mimetype. *)
Theorem ij_stream_tagged (sts : list ffstream) (n : Z) :
  ij_stream sts = Some n -> exists st, In st sts /\ st_index st = n /\ tagged_json st.
Proof.
  unfold ij_stream. destruct (ij_scan_spec sts None) as [H1 H2].
  destruct (ij_scan sts None) as [p1 p2]. cbn [fst snd] in H1, H2.
  destruct p1 as [m|].
  - intros [= <-]. destruct (H1 m eq_refl) as (st & Hi & Hx & Hj). exists st.
    split; [exact Hi|split; [exact Hx|]]. unfold has_ij_name in Hj.
    destruct (st_tags st) as [tg|] eqn:Ht; [|discriminate]. destruct (tg !! "filename") as [fn|] eqn:Hf; [|discriminate].
    exists tg, fn. split; [exact Ht|split; [exact Hf|left; exact Hj]].
  - intros Hn. destruct (H2 n Hn) as [[=]|Hx]. exact Hx.
Qed.

Lemma ij_scan_skip (sts1 l : list ffstream) : forall (p2 : option Z),
  forallb (fun s => negb (has_ij_name s)) sts1 = true ->
  exists q, fst (ij_scan (sts1 ++ l) p2) = fst (ij_scan l q).
Proof.
  induction sts1 as [|st sts1 IH]; intros p2 Hs; [exists p2; reflexivity|].
  cbn [forallb] in Hs. apply andb_prop in Hs as [Hn Hs]. cbn [app ij_scan].
  unfold has_ij_name in Hn.
  destruct (st_tags st) as [tg|]; [|exact (IH p2 Hs)].
  destruct (tg !! "filename") as [fn|]; [|exact (IH p2 Hs)].
  destruct (Py.endswith (Py.lower fn) ".info.json"); [discriminate|].
  destruct (tg !! "mimetype") as [mt|]; [|exact (IH p2 Hs)].
  destruct (Py.seq (Py.lower mt) "application/json"); apply IH; exact Hs.
Qed.

(** The first stream with an info.json filename is chosen, whatever follows it. *)
Theorem ij_stream_first (sts1 sts2 : list ffstream) (st : ffstream) :
  forallb (fun s => negb (has_ij_name s)) sts1 = true -> has_ij_name st = true ->
  ij_stream (sts1 ++ st :: sts2) = Some (st_index st).
Proof.
  intros Hs Hst. unfold ij_stream.
  destruct (ij_scan_skip sts1 (st :: sts2) None Hs) as [q Hq].
  destruct (ij_scan (sts1 ++ st :: sts2) None) as [p1 p2]. cbn [fst] in Hq. subst p1.
  unfold has_ij_name in Hst. cbn [ij_scan].
  destruct (st_tags st) as [tg|]; [|discriminate].
  destruct (tg !! "filename") as [fn|]; [|discriminate].
  now rewrite Hst.
Qed.

End IJFacts.

(* ------------------------------------------------------------------ *)
(** ** The extra properties on concrete inputs *)

Section ExtraWitnesses.
Local Open Scope Z_scope.
Local Open Scope string_scope.

Lemma fmtconv_no_temp_left_witness :
  files (snd (Body.fmtconv remux_env "/v/x.mp4" "/v/x.mp4.mp4" "" dup_world)) !! "/v/x.mp4.mp4" = Some "out"
  /\ files (snd (Body.fmtconv remux_env "/v/x.mp4" "/v/x.mp4.mp4" "" dup_world)) !! "/v/mux-x.mp4.mp4" = None.
Proof.
  assert (H : Body.fmtconv remux_env "/v/x.mp4" "/v/x.mp4.mp4" "" dup_world
              = (inr (0, ""), snd (Body.fmtconv remux_env "/v/x.mp4" "/v/x.mp4.mp4" "" dup_world)))
    by (vm_compute; reflexivity).
  destruct (fmtconv_no_temp_left remux_env "/v/x.mp4" "/v/x.mp4.mp4" "" dup_world _ _
              ltac:(vm_compute; congruence) H) as (H1 & H2 & _).
  split; [rewrite (H2 eq_refl); reflexivity|exact H1].
Defined.

Lemma upload_success_witness :
  fst (Body.upload remux_env "y" "/v" ["x.mp4"] dup_world) = inr tt
  /\ files (snd (Body.upload remux_env "y" "/v" ["x.mp4"] dup_world)) !! "/v/x.mp4" = None.
Proof.
  assert (Hnd : NoDup (map (Path.join "/v") ["x.mp4"])).
  { apply NoDup_cons. split; [apply not_elem_of_nil|apply NoDup_nil_2]. }
  destruct (upload_success remux_env "y" "/v" ["x.mp4"] dup_world eq_refl Hnd) as (w' & H & Hf & _).
  { intros fn Hfn. apply elem_of_cons in Hfn as [->|Hfn]; [eexists; reflexivity|now apply elem_of_nil in Hfn]. }
  rewrite H. split; [reflexivity|]. rewrite Hf. rewrite decide_True; [reflexivity|]. apply list_elem_of_here.
Defined.

Lemma upload_duplicate_crash_witness :
  exists p, fst (Body.upload remux_env "y" "/v" ["a.mp4"; "a.mp4"] dup_world)
            = inl (Crashed ("FileNotFoundError: " ++ p)).
Proof.
  assert (Hd : ~ NoDup (map (Path.join "/v") ["a.mp4"; "a.mp4"])).
  { intros Hn. apply NoDup_cons in Hn as [Hn _]. apply Hn. apply list_elem_of_here. }
  destruct (upload_duplicate_crash remux_env "y" "/v" ["a.mp4"; "a.mp4"] dup_world eq_refl Hd)
    as (p & w' & H & _).
  exists p. rewrite H. reflexivity.
Defined.

Lemma identity_outcome_witness :
  exists u h, fst (Hook.identity gb_env gb_md gb_world) = inr (<["uploader" := u]> gb_md)
    /\ u = "ip:" ++ h /\ String.length h = 24%nat.
Proof.
  destruct (Hook.identity gb_env gb_md gb_world) as [[s|md'] w'] eqn:H.
  - exfalso. vm_compute in H. discriminate.
  - destruct (identity_outcome gb_env gb_md md' gb_world w' H)
      as [[Hip _]|(ip & db & u & _ & _ & _ & _ & -> & [Hg|[_ (h & Hu & Hl & _)]])].
    + vm_compute in Hip. discriminate.
    + vm_compute in Hg. discriminate.
    + exists u, h. split; [reflexivity|]. split; [exact Hu|exact Hl].
Defined.

Lemma identity_salt_reused_witness :
  exists u, fst (Hook.identity gb_env gb_md db_world) = inr (<["uploader" := u]> gb_md)
    /\ Hook.identity remux_env gb_md (snd (Hook.identity gb_env gb_md db_world))
       = (inr (<["uploader" := u]> gb_md), snd (Hook.identity gb_env gb_md db_world)).
Proof.
  destruct (Hook.identity gb_env gb_md db_world) as [[s|md1] w1] eqn:H.
  - exfalso. vm_compute in H. discriminate.
  - destruct (identity_salt_reused gb_env remux_env gb_md md1 gb_md db_world w1 "10.0.0.1" "SQLite format 3"
                eq_refl ltac:(discriminate) eq_refl eq_refl eq_refl eq_refl H) as (u & -> & H2).
    exists u. split; [reflexivity|exact H2].
Defined.

Lemma ij_stream_tagged_witness :
  IJ.ij_stream ij_streams = Some 1
  /\ exists st, In st ij_streams /\ IJ.st_index st = 1 /\ IJ.tagged_json st.
Proof.
  assert (H : IJ.ij_stream ij_streams = Some 1) by (vm_compute; reflexivity).
  split; [exact H|]. exact (ij_stream_tagged ij_streams 1 H).
Defined.

Lemma ij_stream_first_witness : IJ.ij_stream (ij_pre ++ ij_hit :: ij_post) = Some 3.
Proof. exact (ij_stream_first ij_pre ij_post ij_hit ltac:(vm_compute; reflexivity) ltac:(vm_compute; reflexivity)). Defined.


End ExtraWitnesses.
